(** * speaking-meeting-bot: the persona store and the meeting-bot request

    A shallow embedding of [config/persona_utils.py] (class [PersonaManager])
    and of the request construction of [scripts/meetingbaas_api.py]
    ([create_meeting_bot]), with the properties of the specification stated
    and settled against them.

    Modelling decisions.
    - A Python [str] is a [string]; its characters are the code points
      below 256.  [str.split], [str.replace], [str.strip],
      [str.startswith] and the substring test [in] are defined below with
      Python's meaning (leftmost, non-overlapping occurrences).
    - A Python [dict] whose iteration order is observable (the store, whose
      keys are listed in the error message of [get_persona]) is an
      association list kept in insertion order.
    - A persona is a mutable [dict] object: the store maps a key to the
      address of the object in a heap, [dict.copy] allocates a new object.
    - Exceptions are values of [pyresult].
    - What the code asks of a library or of the file system is a parameter:
      the markdown conversion at the head of [parse_readme] ([convert],
      which may raise), the saves that fail and what they leave of the file
      ([fs_fail]), the draw of [random.choice], the URL validation of the
      request model.  A file holds the text given to [f.write]; the
      translation of line ends between writing and reading in text mode is
      [read_back]. *)

From Stdlib Require Import Ascii String Bool Arith Lia.
From stdpp Require Import base option list strings sorting.

Local Open Scope stdpp_scope.

(** ** Python strings *)

Module PyStr.

(** The newline character and the one-character string holding it. *)
Definition nl : ascii := "010"%char.
Definition NL : string := String nl "".

(** [strip_prefix p s]: the rest of [s] after the prefix [p], when [s]
    starts with [p]. *)
Fixpoint strip_prefix (p s : string) : option string :=
  match p with
  | EmptyString => Some s
  | String a p' =>
      match s with
      | EmptyString => None
      | String b s' => if Ascii.eqb a b then strip_prefix p' s' else None
      end
  end.

(** [s.startswith(p)] *)
Definition startswith (s p : string) : bool :=
  match strip_prefix p s with Some _ => true | None => false end.

(** The leftmost occurrence of [sep] in [s]: the text before it and the
    text after it ([str.partition] without the separator). *)
Fixpoint find_sep (sep s : string) : option (string * string) :=
  match strip_prefix sep s with
  | Some rest => Some (EmptyString, rest)
  | None =>
      match s with
      | EmptyString => None
      | String c s' =>
          match find_sep sep s' with
          | Some (b, a) => Some (String c b, a)
          | None => None
          end
      end
  end.

(** [sub in s] *)
Definition contains (sub s : string) : bool :=
  match find_sep sub s with Some _ => true | None => false end.

(** [s.split(sep, 1)] for a non-empty [sep]. *)
Definition split1 (sep s : string) : list string :=
  match find_sep sep s with
  | Some (b, a) => [b; a]
  | None => [s]
  end.

(** [s.split(sep)] for a non-empty [sep]: every cut consumes at least one
    character, so [String.length s] cuts are enough. *)
Fixpoint split_fuel (n : nat) (sep s : string) : list string :=
  match n with
  | O => [s]
  | S n' =>
      match find_sep sep s with
      | Some (b, a) => b :: split_fuel n' sep a
      | None => [s]
      end
  end.

Definition split (sep s : string) : list string :=
  split_fuel (String.length s) sep s.

(** [s.replace(old, new)] for a non-empty [old]. *)
Fixpoint replace_fuel (n : nat) (old new s : string) : string :=
  match n with
  | O => s
  | S n' =>
      match find_sep old s with
      | Some (b, a) => b +:+ new +:+ replace_fuel n' old new a
      | None => s
      end
  end.

Definition replace (old new s : string) : string :=
  replace_fuel (String.length s) old new s.

(** [str.isspace] on one character, for code points below 256:
    U+0009..U+000D, U+001C..U+0020, U+0085 and U+00A0. *)
Definition is_space (c : ascii) : bool :=
  let n := nat_of_ascii c in
  ((9 <=? n) && (n <=? 13)) || ((28 <=? n) && (n <=? 32))
  || (n =? 133) || (n =? 160).

Fixpoint lstrip (s : string) : string :=
  match s with
  | EmptyString => EmptyString
  | String c s' => if is_space c then lstrip s' else s
  end.

Fixpoint rstrip (s : string) : string :=
  match s with
  | EmptyString => EmptyString
  | String c s' =>
      match rstrip s' with
      | EmptyString => if is_space c then EmptyString else String c EmptyString
      | r => String c r
      end
  end.

(** [s.strip()] *)
Definition strip (s : string) : string := rstrip (lstrip s).

(** [s[n:]] *)
Fixpoint drop_chars (n : nat) (s : string) : string :=
  match n, s with
  | S n', String _ s' => drop_chars n' s'
  | _, _ => s
  end.

(** [sep.join(l)] *)
Fixpoint join (sep : string) (l : list string) : string :=
  match l with
  | [] => ""
  | [x] => x
  | x :: l' => x +:+ sep +:+ join sep l'
  end.

(** The character [c] does not occur in [s]. *)
Fixpoint lacks (c : ascii) (s : string) : bool :=
  match s with
  | EmptyString => true
  | String a s' => negb (Ascii.eqb c a) && lacks c s'
  end.

(** No non-empty suffix of [p] is a prefix of [t]: a match of [p] cannot
    begin before [t] and run into it. *)
Fixpoint no_cont (p t : string) : bool :=
  match p with
  | EmptyString => true
  | String _ p' => negb (startswith t p) && no_cont p' t
  end.

(** [w] put before the text that precedes an occurrence. *)
Definition prepend (w : string) (o : option (string * string))
  : option (string * string) :=
  match o with
  | Some (b, a) => Some (w +:+ b, a)
  | None => None
  end.

End PyStr.

Import PyStr.

(** ** Exceptions, dictionaries *)

Inductive pyexn : Type :=
| IndexError (msg : string)
| KeyError (msg : string)
| ValidationError               (* pydantic rejects a field *)
| LibraryError (msg : string)   (* any exception raised inside a library call *)
| Dangling.                     (* an address outside the heap: not a Python
                                   exception, excluded by [wf_world] *)

Inductive pyresult (A : Type) : Type :=
| Ok (a : A)
| Raise (e : pyexn).

Arguments Ok {A} a.
Arguments Raise {A} e.

#[global] Instance pyresult_bind : MBind pyresult :=
  fun A B f m => match m with Ok a => f a | Raise e => Raise e end.

(** [l[i]] *)
Definition index {A} (l : list A) (i : nat) : pyresult A :=
  match l !! i with
  | Some a => Ok a
  | None => Raise (IndexError "list index out of range")
  end.

(** A [dict] with [str] keys, in insertion order. *)
Module Dict.

Definition t (V : Type) : Type := list (string * V).

Fixpoint get {V} (d : t V) (k : string) : option V :=
  match d with
  | [] => None
  | (k', v) :: d' => if String.eqb k k' then Some v else get d' k
  end.

(** [d[k] = v]: an existing key keeps its place, a new one goes last. *)
Fixpoint set {V} (d : t V) (k : string) (v : V) : t V :=
  match d with
  | [] => [(k, v)]
  | (k', v') :: d' =>
      if String.eqb k k' then (k', v) :: d' else (k', v') :: set d' k v
  end.

(** [d.get(k, dflt)] *)
Definition get_default {V} (d : t V) (k : string) (dflt : V) : V :=
  match get d k with Some v => v | None => dflt end.

Definition keys {V} (d : t V) : list string := map fst d.
Definition values {V} (d : t V) : list V := map snd d.

End Dict.

(** ** [PersonaManager]: the document format *)

(** The [dict] that [parse_readme] returns and the store holds. *)
Record Persona : Type := mkPersona {
  name : string;
  prompt : string;
  image : string;
  entry_message : string
}.

(** The separator of second-level sections, ["\n## "]. *)
Definition section_sep : string := String nl "## ".

(** One line of the Metadata section: [- key: value]. *)
Definition metadata_line (metadata : Dict.t string) (line : string)
  : Dict.t string :=
  if startswith line "- " then
    match split1 ": " (drop_chars 2 line) with
    | [key; value] => Dict.set metadata key (strip value)
    | _ => metadata
    end
  else metadata.

Definition metadata_section (metadata : Dict.t string) (section : string)
  : Dict.t string :=
  fold_left metadata_line (split NL section) metadata.

(** The loop over the sections: the first one that starts with
    [Metadata] is read, then the loop breaks. *)
Fixpoint metadata_scan (sections : list string) (metadata : Dict.t string)
  : Dict.t string :=
  match sections with
  | [] => metadata
  | section :: rest =>
      if startswith section "Metadata" then metadata_section metadata section
      else metadata_scan rest metadata
  end.

(** The statements of [PersonaManager.parse_readme] that follow the call of
    the markdown library. *)
Definition parse_sections (content : string) : pyresult Persona :=
  let sections := split section_sep content in
  section0 ← index sections 0;
  title ← index (split1 NL section0) 0;
  let name := strip (replace "# " "" title) in
  body ← index (split1 (NL +:+ NL) section0) 1;
  let prompt := strip body in
  let metadata :=
    metadata_scan sections [("image", ""); ("entry_message", "")] in
  Ok {| name := name;
        prompt := prompt;
        image := Dict.get_default metadata "image" "";
        entry_message := Dict.get_default metadata "entry_message" "" |}.

(** [PersonaManager.parse_readme].  [convert] stands for [self.md.reset()]
    followed by [self.md.convert(content)], calls of the markdown library:
    it gives the HTML, which is not used, or it raises, and what it raises
    is not caught here. *)
Definition parse_readme (convert : string -> pyresult string) (content : string)
  : pyresult Persona :=
  html ← convert content;
  parse_sections content.

(** The document that [PersonaManager.save_persona] writes. *)
Definition readme_content (persona : Persona) : string :=
  "# " +:+ name persona +:+ "

" +:+ prompt persona +:+ "

## Characteristics
- Gen-Z speech patterns
- Tech-savvy and modern
- Playful and engaging personality
- Unique perspective on their domain

## Voice
" +:+ name persona +:+ " speaks with:
- modern internet slang
- expertise in their field

## Metadata
- image: " +:+ image persona +:+ "
- entry_message: " +:+ entry_message persona +:+ "
".

(** The document, section by section. *)
Definition top_text (n p : string) : string :=
  ("# " +:+ n) +:+ String nl (String nl (p +:+ String nl "")).

Definition characteristics_text : string :=
  "Characteristics
- Gen-Z speech patterns
- Tech-savvy and modern
- Playful and engaging personality
- Unique perspective on their domain
".

Definition voice_text (n : string) : string :=
  "Voice" +:+ String nl ((n +:+ " speaks with:") +:+ String nl
  "- modern internet slang
- expertise in their field
").

Definition metadata_text (i e : string) : string :=
  "Metadata" +:+ String nl
    (("- " +:+ "image" +:+ ": " +:+ i) +:+ String nl
       (("- " +:+ "entry_message" +:+ ": " +:+ e) +:+ String nl "")).

(** The header the metadata loop looks for, after a section separator. *)
Definition metadata_header : string := section_sep +:+ "Metadata".

(** ** [PersonaManager]: the store *)

Inductive level : Type := INFO | WARNING | ERROR.

(** A failure of [save_persona] for a directory: the text of the error,
    and what it does to README.md.  [file_left = None]: the failure comes
    before the file is opened for writing ([mkdir] or [open] fails) and the
    file is untouched.  [file_left = Some t]: the file was opened, which
    empties it, and the failure comes after; [t] is what the file then
    holds, the empty text or what reached it of the document. *)
Record Failure : Type := mkFailure {
  error_text : string;
  file_left : option string
}.

(** The state a [PersonaManager] works on.
    - [heap]: the persona objects, by address;
    - [personas]: the attribute [self.personas], key to address;
    - [files]: the text last written to [<personas_dir>/<key>/README.md],
      by key, as [f.write] received it; what a later [f.read()] gives for
      it is [read_back];
    - [fs_fail]: the directories for which saving fails, with the way it
      fails;
    - [log]: what went to the logger, oldest first. *)
Record World : Type := mkWorld {
  heap : list Persona;
  personas : Dict.t nat;
  files : Dict.t string;
  fs_fail : Dict.t Failure;
  log : list (level * string)
}.

Definition set_heap (h : list Persona) (w : World) : World :=
  mkWorld h (personas w) (files w) (fs_fail w) (log w).

Definition set_files (f : Dict.t string) (w : World) : World :=
  mkWorld (heap w) (personas w) f (fs_fail w) (log w).

Definition logger (lv : level) (msg : string) (w : World) : World :=
  mkWorld (heap w) (personas w) (files w) (fs_fail w) (log w ++ [(lv, msg)]).

(** Every key of the store is the name of a directory entry, so it is not
    empty, and it holds the address of an object of the heap. *)
Definition wf_world (w : World) : Prop :=
  Forall (fun kv => fst kv <> "" /\ snd kv < length (heap w)) (personas w).

Definition set_image (v : string) (p : Persona) : Persona :=
  mkPersona (name p) (prompt p) v (entry_message p).

Definition set_prompt (v : string) (p : Persona) : Persona :=
  mkPersona (name p) v (image p) (entry_message p).

(** Python's truth value of a [str]. *)
Definition truthy (s : string) : bool := negb (String.eqb s "").

(** [PersonaManager.save_persona]; [persona] is the address of the object
    passed.  Whatever is raised inside is caught, logged, and turned into
    [False]. *)
Definition save_persona (key : string) (persona : nat) (w : World)
  : bool * World :=
  match heap w !! persona with
  | None => (false, w)
  | Some p =>
      match Dict.get (fs_fail w) key with
      | Some failure =>
          (false,
           logger ERROR ("Failed to save persona " +:+ key +:+ ": "
                         +:+ error_text failure)
             match file_left failure with
             | Some t => set_files (Dict.set (files w) key t) w
             | None => w
             end)
      | None => (true, set_files (Dict.set (files w) key (readme_content p)) w)
      end
  end.

(** The text [get_persona] appends to the prompt it returns. *)
Definition interaction_instructions : string :=
  "
Remember:
1. Start by clearly stating who you are
2. When someone new speaks, ask them who they are
3. Then consider and express how their role/expertise could help you".

(** [<object at l>.copy()]: a new object with the same fields; gives its
    address. *)
Definition dict_copy (l : nat) (w : World) : pyresult nat * World :=
  match heap w !! l with
  | None => (Raise Dangling, w)
  | Some p => (Ok (length (heap w)), set_heap (heap w ++ [p]) w)
  end.

(** The branch [else] of [get_persona]: a draw among the values of the
    store.  [rnd] stands for the draw of [random.choice]: the element at
    [rnd mod len] is taken, and an empty store raises [IndexError]. *)
Definition random_persona (rnd : nat) (w : World) : pyresult nat * World :=
  let values := Dict.values (personas w) in
  match values !! (rnd mod length values) with
  | None => (Raise (IndexError "Cannot choose from an empty sequence"), w)
  | Some l =>
      match dict_copy l w with
      | (Ok persona, w1) =>
          match heap w1 !! persona with
          | Some p =>
              (Ok persona,
               logger INFO ("Randomly selected persona: " +:+ name p) w1)
          | None => (Raise Dangling, w1)
          end
      | r => r
      end
  end.

(** The branch [if name:] of [get_persona]: the lookup by key. *)
Definition named_persona (n : string) (w : World) : pyresult nat * World :=
  match Dict.get (personas w) n with
  | None =>
      (Raise (KeyError ("Persona '" +:+ n +:+ "' not found. Valid options: "
                        +:+ join ", " (Dict.keys (personas w)))), w)
  | Some l =>
      match dict_copy l w with
      | (Ok persona, w1) =>
          (Ok persona, logger INFO ("Using specified persona: " +:+ n) w1)
      | r => r
      end
  end.

(** The two assignments [get_persona] makes on the copy. *)
Definition instruct (persona : nat) (w : World) : pyresult nat * World :=
  match heap w !! persona with
  | None => (Raise Dangling, w)
  | Some p =>
      let w1 :=
        if negb (truthy (image p))
        then set_heap (alter (set_image "") persona (heap w)) w
        else w in
      let w2 :=
        set_heap
          (alter (fun q => set_prompt (prompt q +:+ interaction_instructions) q)
                 persona (heap w1)) w1 in
      (Ok persona, w2)
  end.

(** [PersonaManager.get_persona]; the result is the address of the [dict]
    returned.  [name = None] is the call without argument. *)
Definition get_persona (name : option string) (rnd : nat) (w : World)
  : pyresult nat * World :=
  let selected :=
    match name with
    | Some n => if truthy n then named_persona n w else random_persona rnd w
    | None => random_persona rnd w
    end in
  match selected with
  | (Ok persona, w1) => instruct persona w1
  | r => r
  end.

(** [PersonaManager.update_persona_image] *)
Definition update_persona_image (key image_path : string) (w : World)
  : bool * World :=
  match Dict.get (personas w) key with
  | Some l =>
      let w1 := set_heap (alter (set_image image_path) l (heap w)) w in
      save_persona key l w1
  | None => (false, logger ERROR ("Persona key '" +:+ key +:+ "' not found") w)
  end.

(** [PersonaManager.needs_image_upload] *)
Definition needs_image_upload (key domain : string) (w : World) : bool :=
  match Dict.get (personas w) key with
  | None => false
  | Some l =>
      match heap w !! l with
      | None => false
      | Some p =>
          let current_url := image p in
          negb (truthy current_url && contains domain current_url)
      end
  end.

(** [str(e)] for the exceptions [parse_readme] can raise. *)
Definition exn_text (e : pyexn) : string :=
  match e with
  | IndexError msg => msg
  | KeyError msg => msg
  | ValidationError => "validation error"
  | LibraryError msg => msg
  | Dangling => ""
  end.

(** [PersonaManager.load_personas] over the listing of [personas_dir]: for
    every entry its name, whether it is a directory, and the text that
    [f.read()] gives for its README.md when there is one.  [acc] is the local [personas].  An
    exception of [parse_readme] is logged and raised again. *)
Record DirEntry : Type := mkDirEntry {
  entry_name : string;
  is_dir : bool;
  readme : option string
}.

Fixpoint load_entries (convert : string -> pyresult string)
  (entries : list DirEntry) (acc : Dict.t nat) (w : World)
  : pyresult (Dict.t nat) * World :=
  match entries with
  | [] => (Ok acc, w)
  | e :: rest =>
      if negb (is_dir e) then load_entries convert rest acc w
      else
        match readme e with
        | None =>
            load_entries convert rest acc
              (logger WARNING
                 ("Skipping persona without README: " +:+ entry_name e) w)
        | Some content =>
            match parse_readme convert content with
            | Ok p =>
                load_entries convert rest
                  (Dict.set acc (entry_name e) (length (heap w)))
                  (set_heap (heap w ++ [p]) w)
            | Raise ex =>
                (Raise ex,
                 logger ERROR ("Failed to load personas: " +:+ exn_text ex) w)
            end
        end
  end.

Definition load_personas (convert : string -> pyresult string)
  (entries : list DirEntry) (w : World) : pyresult (Dict.t nat) * World :=
  load_entries convert entries [] w.

(** ** [create_meeting_bot]: the request *)

Module MeetingBaas.

Inductive RecordingMode : Type := SPEAKER_VIEW | GALLERY_VIEW | SCREEN_SHARE.

Record AutomaticLeave : Type := mkAutomaticLeave {
  waiting_room_timeout : nat;
  noone_joined_timeout : nat
}.

Record SpeechToText : Type := mkSpeechToText {
  provider : string;
  api_key : option string
}.

Record Streaming : Type := mkStreaming {
  input : string;
  output : string;
  audio_frequency : string
}.

Section Request.

(** [pydantic.HttpUrl] and its validation of a [str], and the values
    of the free-form [extra] mapping, belong to libraries. *)
Variable HttpUrl : Type.
Variable validate_url : string -> option HttpUrl.
Variable Any : Type.

Record MeetingBaasRequest : Type := mkRequest {
  meeting_url : string;
  bot_name : string;
  reserved : bool;
  streaming : Streaming;
  automatic_leave : AutomaticLeave;
  recording_mode : RecordingMode;
  bot_image : option HttpUrl;
  deduplication_key : option string;
  entry_message : option string;
  extra : option (Dict.t Any);
  speech_to_text : option SpeechToText;
  start_time : option nat;
  webhook_url : option string
}.

Definition set_speech_to_text (v : option SpeechToText)
  (r : MeetingBaasRequest) : MeetingBaasRequest :=
  mkRequest (meeting_url r) (bot_name r) (reserved r) (streaming r)
            (automatic_leave r) (recording_mode r) (bot_image r)
            (deduplication_key r) (entry_message r) (extra r) v
            (start_time r) (webhook_url r).

(** The validation of the optional field [bot_image]. *)
Definition validate_bot_image (bot_image : option string)
  : pyresult (option HttpUrl) :=
  match bot_image with
  | None => Ok None
  | Some u =>
      match validate_url u with
      | Some url => Ok (Some url)
      | None => Raise ValidationError
      end
  end.

(** [create_meeting_bot] up to the request it sends: the streaming
    configuration, the request model, and the speech-to-text setting of
    the recorder-only mode. *)
Definition create_meeting_bot_request
  (meeting_url websocket_url bot_id persona_name : string)
  (recorder_only : bool) (bot_image entry_message : option string)
  (extra : option (Dict.t Any)) (streaming_audio_frequency : string)
  : pyresult MeetingBaasRequest :=
  let websocket_with_path := websocket_url +:+ "/ws/" +:+ bot_id in
  let streaming :=
    mkStreaming websocket_with_path websocket_with_path
                streaming_audio_frequency in
  image ← validate_bot_image bot_image;
  let request :=
    mkRequest meeting_url persona_name false streaming
              (mkAutomaticLeave 600 0) SPEAKER_VIEW image
              (Some (persona_name +:+ "-BaaS-" +:+ bot_id))
              entry_message extra None None None in
  Ok (if recorder_only
      then set_speech_to_text (Some (mkSpeechToText "Default" None)) request
      else request).

End Request.

End MeetingBaas.

(** ** [PersonaManager]: the other operations *)

(** The text before the first section separator, [sections[0]]. *)
Definition first_section (content : string) : string :=
  match find_sep section_sep content with
  | Some (b, _) => b
  | None => content
  end.

(** The loop of [save_personas] over [self.personas.items()]. *)
Fixpoint save_items (items : list (string * nat)) (success : bool) (w : World)
  : bool * World :=
  match items with
  | [] => (success, w)
  | (key, persona) :: rest =>
      match save_persona key persona w with
      | (true, w1) => save_items rest success w1
      | (false, w1) =>
          save_items rest false
            (logger ERROR ("Failed to save persona " +:+ key) w1)
      end
  end.

(** [PersonaManager.save_personas] *)
Definition save_personas (w : World) : bool * World :=
  save_items (personas w) true w.

(** [PersonaManager.list_personas]: [sorted] on the keys.  Strings are
    compared character by character, by code point; the keys of a [dict]
    are distinct, so the sorted list does not depend on the algorithm. *)
Definition list_personas (w : World) : list string :=
  merge_sort String.le (Dict.keys (personas w)).

(** The loop of [get_persona_by_name]: the address of the first persona
    whose display name is [n]. *)
Fixpoint first_named (n : string) (values : list nat) (w : World)
  : pyresult (option nat) :=
  match values with
  | [] => Ok None
  | l :: rest =>
      match heap w !! l with
      | None => Raise Dangling
      | Some p =>
          if String.eqb (name p) n then Ok (Some l) else first_named n rest w
      end
  end.

(** The display names of the store, in its order. *)
Definition display_names (w : World) : list string :=
  omap (fun l => name <$> heap w !! l) (Dict.values (personas w)).

(** [PersonaManager.get_persona_by_name] *)
Definition get_persona_by_name (n : string) (w : World) : pyresult nat * World :=
  match first_named n (Dict.values (personas w)) w with
  | Raise e => (Raise e, w)
  | Ok (Some l) => dict_copy l w
  | Ok None =>
      (Raise (KeyError ("Persona '" +:+ n +:+ "' not found. Valid options: "
                        +:+ join ", " (display_names w))), w)
  end.

(** [PersonaManager.get_image_urls]: one entry per key, in the order of the
    store. *)
Definition get_image_urls (w : World) : Dict.t string :=
  map (fun kv => (fst kv,
                  match heap w !! snd kv with
                  | Some p => image p
                  | None => ""
                  end)) (personas w).

(** The entries of a directory listing that [load_personas] reads. *)
Definition readable (e : DirEntry) : bool :=
  is_dir e && match readme e with Some _ => true | None => false end.

(** ** [generate_images.py]: the parts that work on texts and on the store *)

Module GenerateImages.

(** [api_key.replace("sk_live_", "")], in [generate_image_worker] and in
    [main]. *)
Definition clean_api_key (api_key : string) : string :=
  replace "sk_live_" "" api_key.

(** What [main] does with [sys.argv]: it logs an error, prints the usage
    and exits with status 1, or it goes on with the three keys. *)
Inductive argv_result : Type :=
| Exit1 (logged : string)
| Keys (replicate_api_key utfs_api_key app_id : string).

Definition check_argv (argv : list string) : argv_result :=
  if negb (length argv =? 7) then Exit1 "Missing arguments"
  else
    match argv !! 1, argv !! 2, argv !! 3, argv !! 4, argv !! 5, argv !! 6 with
    | Some f1, Some k1, Some f2, Some k2, Some f3, Some k3 =>
        if negb (String.eqb f1 "--replicate-key")
           || negb (String.eqb f2 "--utfs-key")
           || negb (String.eqb f3 "--app-id")
        then Exit1 "Arguments must be --replicate-key <replicate_key> --utfs-key <utfs_key> --app-id <app_id>"
        else Keys (clean_api_key k1) k2 k3
    | _, _, _, _, _, _ => Exit1 "Missing arguments"
    end.

(** [next(k for k, v in persona_manager.personas.items()
          if v["name"] == persona_name)]; [None] stands for
    [StopIteration]. *)
Fixpoint key_of_name (persona_name : string) (items : list (string * nat))
  (w : World) : option string :=
  match items with
  | [] => None
  | (k, l) :: rest =>
      match heap w !! l with
      | Some v =>
          if String.eqb (name v) persona_name then Some k
          else key_of_name persona_name rest w
      | None => None
      end
  end.

End GenerateImages.


(** ** Properties of texts, example values *)

(** A text without line break. *)
Definition single_line (s : string) : Prop := lacks nl s = true.

(** A text without white space at either end. *)
Definition stripped (s : string) : Prop := strip s = s.

(** A text without empty line. *)
Definition one_paragraph (s : string) : Prop := contains (NL +:+ NL) s = false.

(** No line of [s] begins with [q]. *)
Definition no_line_starts (q s : string) : Prop :=
  contains (String nl q) (String nl s) = false.

(** A value of the metadata: a single line, stripped. *)
Definition clean_value (v : string) : Prop := stripped v /\ single_line v.

(** A stored record as [get_persona] returns it: the instructions follow
    the prompt. *)
Definition instructed (p : Persona) : Persona :=
  mkPersona (name p) (prompt p +:+ interaction_instructions)
            (image p) (entry_message p).

(** A call of [get_persona] without name, or with the empty name. *)
Definition no_name (name : option string) : Prop :=
  match name with Some n => n = "" | None => True end.

(** The effect of one [save_persona] on the files, and the keys that
    [save_personas] can write. *)
Definition save_step (w : World) (f : Dict.t string) (kv : string * nat)
  : Dict.t string :=
  match heap w !! snd kv, Dict.get (fs_fail w) (fst kv) with
  | Some p, None => Dict.set f (fst kv) (readme_content p)
  | Some _, Some failure =>
      match file_left failure with
      | Some t => Dict.set f (fst kv) t
      | None => f
      end
  | None, _ => f
  end.

Definition can_save (w : World) (kv : string * nat) : bool :=
  match heap w !! snd kv, Dict.get (fs_fail w) (fst kv) with
  | Some _, None => true
  | _, _ => false
  end.

(** Saving under the key does not fail. *)
Definition writable (w : World) (k : string) : bool :=
  match Dict.get (fs_fail w) k with None => true | Some _ => false end.

(** A listing with a persona directory, a plain file, and a directory
    without README. *)
Definition example_listing : list DirEntry :=
  [mkDirEntry "nova" true (Some (readme_content (mkPersona "Nova" "I am Nova." "" "hi")));
   mkDirEntry "notes.txt" false None;
   mkDirEntry "empty" true None].

(** Reading in text mode: ["\r\n"] and ["\r"] come back as ["\n"]. *)
Definition CR : string := String "013"%char "".

Definition universal_newlines (t : string) : string :=
  replace CR NL (replace (CR +:+ NL) NL t).

(** What [f.read()] gives for a file in which the text [t] was written, on
    a platform whose line separator [os.linesep] is [linesep]: writing in
    text mode turns every ["\n"] into the separator. *)
Definition read_back (linesep t : string) : string :=
  universal_newlines (replace NL linesep t).

(** A text without carriage return. *)
Definition no_carriage_return (s : string) : Prop := lacks "013"%char s = true.

(** A conversion that never raises, to build examples with. *)
Definition convert_plain (content : string) : pyresult string :=
  Ok ("<p>" +:+ content +:+ "</p>").

(** A prompt of two lines, the second one a header of a Metadata section. *)
Definition forged_metadata : Persona :=
  mkPersona "Nova"
            ("I am Nova." +:+ NL +:+ "## Metadata" +:+ NL +:+ "- image: evil")
            "good.png" "hi".

(** A prompt with a header line of another section. *)
Definition skills_header : Persona :=
  mkPersona "Nova" ("I am Nova." +:+ NL +:+ "## Skills" +:+ NL +:+ "- talk")
            "good.png" "hi".

(** An entry message of two lines. *)
Definition two_line_entry : Persona :=
  mkPersona "Nova" "I am Nova." "" ("Hi!" +:+ NL +:+ "Bye").

Definition nova : Persona := mkPersona "Nova" "I am Nova." "" "hi".

(** A store of two personas: the second has its image on the hosting
    domain and a directory that cannot be written. *)
Definition example_world : World :=
  mkWorld [mkPersona "Nova" "I am Nova." "" "hi";
           mkPersona "Bob" "I am Bob." "https://utfs.io/uploadthing.com/b.png" ""]
          [("nova", 0); ("bob", 1)] []
          [("bob", mkFailure "Read-only file system" None)] [].

(** * Facts about the string operations *)

Module PyStrFacts.

Lemma app_cons c s t : String c s +:+ t = String c (s +:+ t).
Proof. reflexivity. Qed.

Lemma app_nil_l s : "" +:+ s = s.
Proof. reflexivity. Qed.

Lemma app_nil_r s : s +:+ "" = s.
Proof. induction s as [|c s IH]; [reflexivity|]. rewrite app_cons, IH. reflexivity. Qed.

Lemma app_assoc a b c : (a +:+ b) +:+ c = a +:+ (b +:+ c).
Proof.
  induction a as [|x a IH]; [reflexivity|].
  rewrite !app_cons, IH. reflexivity.
Qed.

(** Appends regrouped to the right, literal text pushed through. *)
Ltac norm_app :=
  repeat (rewrite !app_assoc || rewrite !app_cons || rewrite !app_nil_l).

Lemma length_app a b :
  String.length (a +:+ b) = String.length a + String.length b.
Proof.
  induction a as [|x a IH]; [reflexivity|].
  rewrite app_cons. simpl. rewrite IH. reflexivity.
Qed.

(** *** Prefixes *)

Lemma strip_prefix_app p s : strip_prefix p (p +:+ s) = Some s.
Proof.
  induction p as [|a p IH]; [reflexivity|].
  rewrite app_cons. simpl. rewrite Ascii.eqb_refl. exact IH.
Qed.

Lemma strip_prefix_Some p s r : strip_prefix p s = Some r -> s = p +:+ r.
Proof.
  revert s. induction p as [|a p IH]; intros s H; simpl in H.
  - injection H as <-. reflexivity.
  - destruct s as [|b s]; [discriminate|].
    destruct (Ascii.eqb_spec a b) as [->|]; [|discriminate].
    rewrite app_cons. f_equal. apply IH, H.
Qed.

Lemma strip_prefix_app_r p s r t :
  strip_prefix p s = Some r -> strip_prefix p (s +:+ t) = Some (r +:+ t).
Proof.
  intros H. apply strip_prefix_Some in H. subst s.
  rewrite app_assoc. apply strip_prefix_app.
Qed.

Lemma startswith_app s p t : startswith s p = true -> startswith (s +:+ t) p = true.
Proof.
  unfold startswith. destruct (strip_prefix p s) as [r|] eqn:E; [|discriminate].
  intros _. rewrite (strip_prefix_app_r _ _ _ t E). reflexivity.
Qed.

Lemma strip_prefix_None_app p s t :
  strip_prefix p s = None -> String.length p <= String.length s ->
  strip_prefix p (s +:+ t) = None.
Proof.
  revert s. induction p as [|a p IH]; intros s H Hl; simpl in *.
  - discriminate.
  - destruct s as [|b s]; simpl in Hl; [lia|].
    rewrite app_cons. destruct (Ascii.eqb a b); [|reflexivity].
    apply IH; [assumption|lia].
Qed.

(** A prefix without the character [c] that does not match [s] does not
    match [s] followed by [c]. *)
Lemma strip_prefix_lacks c p s r :
  lacks c p = true -> strip_prefix p s = None ->
  strip_prefix p (s +:+ String c r) = None.
Proof.
  revert s. induction p as [|a p IH]; intros s Hl H; simpl in *.
  - discriminate.
  - apply andb_true_iff in Hl as [Hca Hl].
    destruct s as [|b s].
    + rewrite app_nil_l. rewrite Ascii.eqb_sym.
      destruct (Ascii.eqb c a); [discriminate|reflexivity].
    + rewrite app_cons. destruct (Ascii.eqb a b); [|reflexivity].
      apply IH; assumption.
Qed.

Lemma strip_prefix_no_cont p w t :
  strip_prefix p w = None -> no_cont p t = true ->
  strip_prefix p (w +:+ t) = None.
Proof.
  revert p. induction w as [|c w IH]; intros p H Hn.
  - rewrite app_nil_l. destruct p as [|a p]; [discriminate|].
    simpl in Hn. apply andb_true_iff in Hn as [Hn _].
    unfold startswith in Hn.
    destruct (strip_prefix (String a p) t); [discriminate|reflexivity].
  - destruct p as [|a p]; [discriminate|].
    rewrite app_cons. simpl in *.
    apply andb_true_iff in Hn as [_ Hn].
    destruct (Ascii.eqb a c); [|reflexivity].
    apply IH; assumption.
Qed.

(** *** The leftmost occurrence *)

Lemma find_sep_cons sep c s :
  find_sep sep (String c s) =
    match strip_prefix sep (String c s) with
    | Some rest => Some ("", rest)
    | None => prepend (String c "") (find_sep sep s)
    end.
Proof.
  simpl. destruct (strip_prefix sep (String c s)); [reflexivity|].
  destruct (find_sep sep s) as [[b a]|]; reflexivity.
Qed.

Lemma find_sep_here sep s : find_sep sep (sep +:+ s) = Some ("", s).
Proof.
  destruct (sep +:+ s) eqn:E; simpl; rewrite <- E, strip_prefix_app; reflexivity.
Qed.

Lemma find_sep_Some sep s b a :
  find_sep sep s = Some (b, a) -> s = b +:+ sep +:+ a.
Proof.
  revert b. induction s as [|c s IH]; intros b H.
  - simpl in H. destruct (strip_prefix sep "") as [r|] eqn:E; [|discriminate].
    injection H as <- <-. apply strip_prefix_Some in E. rewrite app_nil_l. exact E.
  - rewrite find_sep_cons in H.
    destruct (strip_prefix sep (String c s)) as [r|] eqn:E.
    + injection H as <- <-. apply strip_prefix_Some in E. exact E.
    + destruct (find_sep sep s) as [[b' a']|]; [|discriminate].
      simpl in H. injection H as <- <-.
      rewrite app_cons, app_nil_l, app_cons. f_equal. apply IH. reflexivity.
Qed.

Lemma find_sep_app_r sep s t b a :
  find_sep sep s = Some (b, a) -> find_sep sep (s +:+ t) = Some (b, a +:+ t).
Proof.
  revert b. induction s as [|c s IH]; intros b H.
  - destruct sep; simpl in H; [|discriminate].
    injection H as <- <-. rewrite !app_nil_l. destruct t; reflexivity.
  - rewrite find_sep_cons in H. rewrite app_cons, find_sep_cons, <- app_cons.
    destruct (strip_prefix sep (String c s)) as [r|] eqn:E.
    + injection H as <- <-. rewrite (strip_prefix_app_r _ _ _ t E). reflexivity.
    + destruct (find_sep sep s) as [[b' a']|] eqn:F; [|discriminate].
      simpl in H. injection H as <- <-.
      rewrite (IH _ eq_refl).
      destruct (strip_prefix sep (String c s +:+ t)) as [r|] eqn:E'; [|reflexivity].
      (* [s] holds an occurrence, so it is not shorter than [sep] *)
      apply find_sep_Some in F.
      rewrite strip_prefix_None_app in E'; [discriminate|assumption|].
      subst s. simpl. rewrite !length_app. lia.
Qed.

Lemma prepend_app w1 w2 o : prepend w1 (prepend w2 o) = prepend (w1 +:+ w2) o.
Proof. destruct o as [[b a]|]; simpl; [|reflexivity]. rewrite app_assoc. reflexivity. Qed.

(** A word without the first character of the separator is skipped. *)
Lemma find_sep_skip c sep w s :
  lacks c w = true ->
  find_sep (String c sep) (w +:+ s) = prepend w (find_sep (String c sep) s).
Proof.
  induction w as [|a w IH]; intros Hl.
  - rewrite app_nil_l. destruct (find_sep _ s) as [[b a]|]; reflexivity.
  - simpl in Hl. apply andb_true_iff in Hl as [Hca Hl].
    rewrite app_cons, find_sep_cons.
    simpl strip_prefix. destruct (Ascii.eqb c a); [discriminate|].
    rewrite (IH Hl), prepend_app. reflexivity.
Qed.

(** For a separator that is a line start (its first character [c] occurs
    nowhere else in it), a text without occurrence stays so when a line
    break and more text follow it. *)
Lemma find_sep_line c sep s r :
  lacks c sep = true ->
  find_sep (String c sep) s = None ->
  find_sep (String c sep) (s +:+ String c r)
  = prepend s (find_sep (String c sep) (String c r)).
Proof.
  intros Hl. induction s as [|a s IH]; intros H.
  - rewrite app_nil_l. destruct (find_sep _ (String c r)) as [[b a]|]; reflexivity.
  - rewrite find_sep_cons in H.
    destruct (strip_prefix (String c sep) (String a s)) eqn:E; [discriminate|].
    destruct (find_sep (String c sep) s) as [[b' a']|] eqn:F; [discriminate|].
    rewrite app_cons, find_sep_cons, <- app_cons.
    assert (E' : strip_prefix (String c sep) (String a s +:+ String c r) = None).
    { rewrite app_cons. simpl in *. destruct (Ascii.eqb c a); [|reflexivity].
      apply strip_prefix_lacks; assumption. }
    rewrite E', (IH eq_refl), prepend_app. reflexivity.
Qed.

Lemma find_sep_exists sep x y :
  exists b a, find_sep sep (x +:+ sep +:+ y) = Some (b, a).
Proof.
  induction x as [|c x [b [a IH]]].
  - rewrite app_nil_l, find_sep_here. eauto.
  - rewrite app_cons, find_sep_cons.
    destruct (strip_prefix sep _); [eauto|]. rewrite IH. simpl. eauto.
Qed.

Lemma find_sep_shorter sep s b a :
  sep <> "" -> find_sep sep s = Some (b, a) ->
  String.length a < String.length s.
Proof.
  intros Hne H. apply find_sep_Some in H. subst s.
  rewrite !length_app. destruct sep; [congruence|]. simpl. lia.
Qed.

(** [sub in s] holds exactly when [s] is some text, [sub], some text. *)
Lemma contains_spec sub s :
  contains sub s = true <-> exists pre post, s = pre +:+ sub +:+ post.
Proof.
  unfold contains. split.
  - destruct (find_sep sub s) as [[b a]|] eqn:E; [|discriminate].
    intros _. apply find_sep_Some in E. eauto.
  - intros [pre [post ->]].
    destruct (find_sep_exists sub pre post) as [b [a ->]]. reflexivity.
Qed.

Lemma contains_false_app sub s t u :
  contains sub (s +:+ t +:+ u) = false -> contains sub t = false.
Proof.
  intros H. destruct (contains sub t) eqn:E; [|reflexivity].
  apply contains_spec in E as [pre [post ->]].
  assert (C : contains sub (s +:+ (pre +:+ sub +:+ post) +:+ u) = true).
  { apply contains_spec. exists (s +:+ pre), (post +:+ u).
    rewrite !app_assoc. reflexivity. }
  congruence.
Qed.

(** An occurrence of a longer text is an occurrence of its beginning. *)
Lemma contains_shorter sub q s :
  contains (sub +:+ q) s = true -> contains sub s = true.
Proof.
  intros H. apply contains_spec in H as [pre [post ->]].
  apply contains_spec. exists pre, (q +:+ post). rewrite !app_assoc. reflexivity.
Qed.

(** *** [split] and [replace] *)

Lemma split_fuel_S n sep s :
  split_fuel (S n) sep s =
    match find_sep sep s with
    | Some (b, a) => b :: split_fuel n sep a
    | None => [s]
    end.
Proof. reflexivity. Qed.

Lemma split_fuel_enough sep n m s :
  sep <> "" -> String.length s <= n -> String.length s <= m ->
  split_fuel n sep s = split_fuel m sep s.
Proof.
  intros Hne. revert m s. induction n as [|n IH]; intros m s Hn Hm.
  - destruct s; simpl in Hn; [|lia].
    destruct m; simpl; [reflexivity|].
    destruct sep; [congruence|reflexivity].
  - destruct m as [|m].
    + destruct s; simpl in Hm; [|lia]. simpl.
      destruct sep; [congruence|reflexivity].
    + rewrite !split_fuel_S.
      destruct (find_sep sep s) as [[b a]|] eqn:E; [|reflexivity].
      pose proof (find_sep_shorter _ _ _ _ Hne E).
      f_equal. apply IH; lia.
Qed.

(** The equation of [split]: cut at the leftmost separator, go on with
    the rest. *)
Lemma split_eq sep s :
  sep <> "" ->
  split sep s =
    match find_sep sep s with
    | Some (b, a) => b :: split sep a
    | None => [s]
    end.
Proof.
  intros Hne. unfold split. destruct s as [|c s].
  - simpl. destruct sep; [congruence|reflexivity].
  - change (String.length (String c s)) with (S (String.length s)).
    rewrite split_fuel_S.
    destruct (find_sep sep (String c s)) as [[b a]|] eqn:E; [|reflexivity].
    pose proof (find_sep_shorter _ _ _ _ Hne E) as Hlt. simpl in Hlt.
    f_equal. apply split_fuel_enough; [assumption|lia|lia].
Qed.

Lemma find_sep_before sep s b a :
  sep <> "" -> find_sep sep s = Some (b, a) -> find_sep sep b = None.
Proof.
  intros Hne E.
  destruct (find_sep sep b) as [[b' a']|] eqn:Eb; [|reflexivity].
  pose proof (find_sep_app_r _ _ (sep +:+ a) _ _ Eb) as E'.
  rewrite <- (find_sep_Some _ _ _ _ E), E in E'. injection E' as -> _.
  apply find_sep_Some in Eb.
  apply (f_equal String.length) in Eb. rewrite !length_app in Eb.
  destruct sep; [congruence|]. simpl in Eb. lia.
Qed.

Lemma split_nonempty sep s : split sep s <> [].
Proof.
  unfold split. destruct (String.length s); simpl; [discriminate|].
  destruct (find_sep sep s) as [[b a]|]; discriminate.
Qed.

(** [split] cuts at every separator: no part holds one, and joining the
    parts with the separator gives the text back. *)
Lemma split_complete sep s :
  sep <> "" ->
  Forall (fun part => find_sep sep part = None) (split sep s)
  /\ join sep (split sep s) = s.
Proof.
  intros Hne.
  remember (String.length s) as n eqn:Hn.
  assert (Hle : String.length s <= n) by lia. clear Hn.
  revert s Hle. induction n as [|n IH]; intros s Hle; rewrite split_eq by assumption.
  - destruct s; simpl in Hle; [|lia].
    destruct sep; [congruence|]. simpl. split; [repeat constructor|reflexivity].
  - destruct (find_sep sep s) as [[b a]|] eqn:E.
    + pose proof (find_sep_shorter _ _ _ _ Hne E) as Hlt.
      destruct (IH a ltac:(lia)) as [HF HJ]. split.
      * constructor; [|exact HF].
        exact (find_sep_before _ _ _ _ Hne E).
      * pose proof (split_nonempty sep a) as Hs.
        destruct (split sep a) as [|x l]; [congruence|].
        change (join sep (b :: x :: l)) with (b +:+ sep +:+ join sep (x :: l)).
        rewrite HJ. symmetry. exact (find_sep_Some _ _ _ _ E).
    + split; [repeat constructor; assumption|reflexivity].
Qed.

Lemma replace_fuel_S n old new s :
  replace_fuel (S n) old new s =
    match find_sep old s with
    | Some (b, a) => b +:+ new +:+ replace_fuel n old new a
    | None => s
    end.
Proof. reflexivity. Qed.

Lemma replace_fuel_enough old new n m s :
  old <> "" -> String.length s <= n -> String.length s <= m ->
  replace_fuel n old new s = replace_fuel m old new s.
Proof.
  intros Hne. revert m s. induction n as [|n IH]; intros m s Hn Hm.
  - destruct s; simpl in Hn; [|lia].
    destruct m; simpl; [reflexivity|].
    destruct old; [congruence|reflexivity].
  - destruct m as [|m].
    + destruct s; simpl in Hm; [|lia]. simpl.
      destruct old; [congruence|reflexivity].
    + rewrite !replace_fuel_S.
      destruct (find_sep old s) as [[b a]|] eqn:E; [|reflexivity].
      pose proof (find_sep_shorter _ _ _ _ Hne E).
      do 2 f_equal. apply IH; lia.
Qed.

(** The equation of [replace]. *)
Lemma replace_eq old new s :
  old <> "" ->
  replace old new s =
    match find_sep old s with
    | Some (b, a) => b +:+ new +:+ replace old new a
    | None => s
    end.
Proof.
  intros Hne. unfold replace. destruct s as [|c s].
  - simpl. destruct old; [congruence|reflexivity].
  - change (String.length (String c s)) with (S (String.length s)).
    rewrite replace_fuel_S.
    destruct (find_sep old (String c s)) as [[b a]|] eqn:E; [|reflexivity].
    pose proof (find_sep_shorter _ _ _ _ Hne E) as Hlt. simpl in Hlt.
    do 2 f_equal. apply replace_fuel_enough; [assumption|lia|lia].
Qed.

(** Every replacement shortens the text by the length of [old]. *)
Lemma replace_empty_length old s :
  old <> "" -> contains old s = true ->
  String.length (replace old "" s) < String.length s.
Proof.
  intros Hne.
  remember (String.length s) as n eqn:Hn.
  assert (Hle : String.length s <= n) by lia. rewrite Hn. clear Hn.
  revert s Hle. induction n as [|n IH]; intros s Hle Hc; unfold contains in Hc;
    rewrite replace_eq by assumption;
    destruct (find_sep old s) as [[b a]|] eqn:E; try discriminate.
  - apply find_sep_shorter in E; [lia|assumption].
  - pose proof (find_sep_shorter _ _ _ _ Hne E) as Hlt.
    pose proof (find_sep_Some _ _ _ _ E) as Hs.
    apply (f_equal String.length) in Hs. rewrite !length_app in Hs.
    rewrite !length_app. simpl.
    assert (0 < String.length old) by (destruct old; [congruence|simpl; lia]).
    destruct (contains old a) eqn:Ca.
    + specialize (IH a ltac:(lia) Ca). lia.
    + unfold contains in Ca. rewrite replace_eq by assumption.
      destruct (find_sep old a) as [[? ?]|]; [discriminate|]. lia.
Qed.

(** For a separator that is a line start, the parts of a text with the
    separator in it are the parts before it and the parts after it. *)
Lemma split_app_sep c sep x t :
  lacks c sep = true ->
  split (String c sep) (x +:+ String c sep +:+ t)
  = split (String c sep) x ++ split (String c sep) t.
Proof.
  intros Hl.
  remember (String.length x) as n eqn:Hn.
  assert (Hle : String.length x <= n) by lia. clear Hn.
  revert x Hle. induction n as [|n IH]; intros x Hle;
    rewrite (split_eq _ (x +:+ _)), (split_eq _ x) by discriminate.
  - destruct x; simpl in Hle; [|lia].
    rewrite app_nil_l, find_sep_here. reflexivity.
  - destruct (find_sep (String c sep) x) as [[b a]|] eqn:E.
    + rewrite (find_sep_app_r _ _ (String c sep +:+ t) _ _ E).
      assert (Hne : String c sep <> "") by discriminate.
      pose proof (find_sep_shorter _ _ _ _ Hne E).
      rewrite IH by lia. reflexivity.
    + rewrite app_cons, (find_sep_line c sep x (sep +:+ t) Hl E).
      rewrite <- app_cons, find_sep_here. simpl. rewrite app_nil_r. reflexivity.
Qed.

(** The first part is a beginning of the text. *)
Lemma split_head sep s : sep <> "" ->
  exists b l r, split sep s = b :: l /\ s = b +:+ r.
Proof.
  intros Hne. rewrite split_eq by assumption.
  destruct (find_sep sep s) as [[b a]|] eqn:E.
  - apply find_sep_Some in E. eauto.
  - exists s, [], "". rewrite app_nil_r. eauto.
Qed.

(** A part after the first one follows a separator in the text. *)
Lemma split_tail_occurs sep s part q :
  sep <> "" -> In part (tail (split sep s)) -> startswith part q = true ->
  contains (sep +:+ q) s = true.
Proof.
  intros Hne.
  remember (String.length s) as n eqn:Hn.
  assert (Hle : String.length s <= n) by lia. clear Hn.
  revert s Hle. induction n as [|n IH]; intros s Hle;
    rewrite split_eq by assumption;
    (destruct (find_sep sep s) as [[b a]|] eqn:E; [|intros []]).
  - apply find_sep_shorter in E; [lia|assumption].
  - pose proof (find_sep_shorter _ _ _ _ Hne E) as Hlt.
    pose proof (find_sep_Some _ _ _ _ E) as ->.
    simpl tail. intros Hin Hq.
    destruct (split_head sep a Hne) as [b' [l [r [Hsp Ha]]]].
    rewrite Hsp in Hin. destruct Hin as [<-|Hin].
    + unfold startswith in Hq.
      destruct (strip_prefix q b') as [u|] eqn:Eq; [|discriminate].
      apply strip_prefix_Some in Eq. apply contains_spec.
      exists b, (u +:+ r). rewrite Ha, Eq, !app_assoc. reflexivity.
    + assert (C : contains (sep +:+ q) a = true).
      { apply IH; [lia| |assumption]. rewrite Hsp. exact Hin. }
      apply contains_spec in C as [pre [post ->]]. apply contains_spec.
      exists (b +:+ sep +:+ pre), post. rewrite !app_assoc. reflexivity.
Qed.

(** *** [strip] *)

Lemma lstrip_length s : String.length (lstrip s) <= String.length s.
Proof.
  induction s as [|c s IH]; simpl; [lia|].
  destruct (is_space c); simpl; lia.
Qed.

Lemma rstrip_length s : String.length (rstrip s) <= String.length s.
Proof.
  induction s as [|c s IH]; simpl; [lia|].
  destruct (rstrip s); [destruct (is_space c)|]; simpl in *; lia.
Qed.

Lemma lstrip_fixed_or_shorter s :
  lstrip s = s \/ String.length (lstrip s) < String.length s.
Proof.
  destruct s as [|c s]; simpl; [left; reflexivity|].
  destruct (is_space c); [right|left; reflexivity].
  pose proof (lstrip_length s). lia.
Qed.

(** A text that [strip] leaves alone has no white space at either end. *)
Lemma strip_fixed s : strip s = s -> lstrip s = s /\ rstrip s = s.
Proof.
  unfold strip. intros H.
  destruct (lstrip_fixed_or_shorter s) as [Hl|Hl].
  - rewrite Hl in H. auto.
  - pose proof (rstrip_length (lstrip s)). rewrite H in *. lia.
Qed.

Lemma lstrip_app s t : lstrip s = s -> s <> "" -> lstrip (s +:+ t) = s +:+ t.
Proof.
  destruct s as [|c s]; [congruence|]. intros H _.
  rewrite app_cons. simpl in *.
  destruct (is_space c); [|reflexivity].
  pose proof (lstrip_length s) as Hlen. rewrite H in Hlen. simpl in Hlen. lia.
Qed.

Lemma rstrip_app_space s c :
  is_space c = true -> rstrip (s +:+ String c "") = rstrip s.
Proof.
  intros Hc. induction s as [|a s IH].
  - rewrite app_nil_l. simpl. rewrite Hc. reflexivity.
  - rewrite app_cons. simpl. rewrite IH. reflexivity.
Qed.

(** White space after a stripped text is stripped away. *)
Lemma strip_app_space s c :
  is_space c = true -> strip s = s -> strip (s +:+ String c "") = s.
Proof.
  intros Hc H. destruct (strip_fixed s H) as [Hl Hr].
  destruct s as [|a s].
  - rewrite app_nil_l. unfold strip. simpl. rewrite Hc. reflexivity.
  - unfold strip. rewrite lstrip_app by (assumption || discriminate).
    rewrite rstrip_app_space by assumption. exact Hr.
Qed.

(** [strip] gives a text that [strip] leaves alone. *)
Lemma rstrip_idem s : rstrip (rstrip s) = rstrip s.
Proof.
  induction s as [|c s IH]; [reflexivity|]. simpl.
  destruct (rstrip s) as [|a r] eqn:E.
  - destruct (is_space c) eqn:Hc; [reflexivity|]. simpl. rewrite Hc. reflexivity.
  - simpl in *. rewrite IH. reflexivity.
Qed.

Lemma lacks_app c s t : lacks c (s +:+ t) = lacks c s && lacks c t.
Proof.
  induction s as [|a s IH]; [reflexivity|].
  rewrite app_cons. simpl. rewrite IH, andb_assoc. reflexivity.
Qed.

(** A text without the first character of [sub] does not hold [sub]. *)
Lemma lacks_find_sep c sub s :
  lacks c s = true -> find_sep (String c sub) s = None.
Proof.
  intros H. rewrite <- (app_nil_r s), (find_sep_skip c sub s "" H). reflexivity.
Qed.

(** *** Texts made of lines *)

Lemma find_sep_next_line c sep w t :
  lacks c w = true -> strip_prefix sep t = None ->
  find_sep (String c sep) (w +:+ String c t)
  = prepend (w +:+ String c "") (find_sep (String c sep) t).
Proof.
  intros Hw Ht. rewrite find_sep_skip, find_sep_cons by assumption.
  simpl strip_prefix. rewrite Ascii.eqb_refl, Ht, prepend_app. reflexivity.
Qed.

Lemma find_sep_first c sep x t :
  lacks c sep = true -> find_sep (String c sep) x = None ->
  find_sep (String c sep) (x +:+ String c sep +:+ t) = Some (x, t).
Proof.
  intros Hl E. rewrite app_cons, (find_sep_line c sep x (sep +:+ t) Hl E).
  rewrite <- app_cons, find_sep_here. simpl. rewrite app_nil_r. reflexivity.
Qed.

(** The first line of a text. *)
Lemma find_sep_nl w t :
  lacks nl w = true -> find_sep NL (w +:+ String nl t) = Some (w, t).
Proof.
  intros Hw. unfold NL. rewrite find_sep_skip, find_sep_cons by assumption.
  simpl. rewrite app_nil_r. reflexivity.
Qed.

Lemma split_no_sep sep s :
  sep <> "" -> find_sep sep s = None -> split sep s = [s].
Proof. intros Hne E. rewrite split_eq, E by assumption. reflexivity. Qed.

(** When the text neither starts with [q] nor holds [q] after a
    separator, no part starts with [q]. *)
Lemma split_none_startswith sep s q :
  sep <> "" -> startswith s q = false -> contains (sep +:+ q) s = false ->
  Forall (fun part => startswith part q = false) (split sep s).
Proof.
  intros Hne Hs Hc.
  destruct (split_head sep s Hne) as [b [l [r [Hsp ->]]]].
  pose proof (split_tail_occurs sep (b +:+ r)) as Ht. rewrite Hsp in *.
  constructor.
  - destruct (startswith b q) eqn:E; [|reflexivity].
    rewrite (startswith_app _ _ r E) in Hs. discriminate.
  - apply Forall_forall. intros part Hin.
    destruct (startswith part q) eqn:E; [|reflexivity].
    apply list_elem_of_In in Hin.
    rewrite (Ht part q Hne Hin E) in Hc. discriminate.
Qed.

Lemma startswith_contains s p sub :
  startswith s p = true -> contains sub p = true -> contains sub s = true.
Proof.
  unfold startswith. destruct (strip_prefix p s) as [r|] eqn:E; [|discriminate].
  intros _ H. apply strip_prefix_Some in E. subst s.
  apply contains_spec in H as [pre [post ->]]. apply contains_spec.
  exists pre, (post +:+ r). rewrite !app_assoc. reflexivity.
Qed.

(** [replace] is [split] followed by [join]. *)
Lemma replace_join_split old new s :
  old <> "" -> replace old new s = join new (split old s).
Proof.
  intros Hne.
  remember (String.length s) as n eqn:Hn.
  assert (Hle : String.length s <= n) by lia. clear Hn.
  revert s Hle. induction n as [|n IH]; intros s Hle;
    rewrite replace_eq, split_eq by assumption;
    (destruct (find_sep old s) as [[b a]|] eqn:E; [|reflexivity]);
    pose proof (find_sep_shorter _ _ _ _ Hne E) as Hlt; [lia|].
  rewrite IH by lia.
  pose proof (split_nonempty old a) as Hs.
  destruct (split old a) as [|x l]; [congruence|reflexivity].
Qed.

Lemma lstrip_head s :
  lstrip s = "" \/ exists c r, lstrip s = String c r /\ is_space c = false.
Proof.
  induction s as [|c s IH]; [left; reflexivity|]. simpl.
  destruct (is_space c) eqn:Hc; [exact IH|right; eauto].
Qed.

Lemma rstrip_head c r :
  is_space c = false -> exists r', rstrip (String c r) = String c r'.
Proof.
  intros Hc. simpl. destruct (rstrip r); [rewrite Hc|]; eauto.
Qed.

(** What [strip] gives has no white space at either end. *)
Lemma strip_idem s : strip (strip s) = strip s.
Proof.
  unfold strip. destruct (lstrip_head s) as [->|[c [r [-> Hc]]]]; [reflexivity|].
  destruct (rstrip_head c r Hc) as [r' E]. rewrite E at 1.
  simpl lstrip. rewrite Hc, <- E. apply rstrip_idem.
Qed.


(** A text without occurrence stays so before a text into which no
    occurrence can run. *)
Lemma find_sep_no_cont sep w t :
  find_sep sep w = None -> no_cont sep t = true ->
  find_sep sep (w +:+ t) = prepend w (find_sep sep t).
Proof.
  induction w as [|c w IH]; intros H Hn.
  - rewrite app_nil_l. destruct (find_sep sep t) as [[b a]|]; reflexivity.
  - rewrite find_sep_cons in H.
    destruct (strip_prefix sep (String c w)) eqn:E; [discriminate|].
    destruct (find_sep sep w) as [[b a]|] eqn:F; [discriminate|].
    rewrite app_cons, find_sep_cons, <- app_cons.
    rewrite (strip_prefix_no_cont _ _ _ E Hn), (IH eq_refl Hn), prepend_app.
    reflexivity.
Qed.


End PyStrFacts.

(** * The document of [save_persona], read by [parse_readme] *)

Module DocumentFacts.

Import PyStrFacts.

Lemma readme_content_sections r :
  readme_content r =
    top_text (name r) (prompt r) +:+ section_sep +:+
    characteristics_text +:+ section_sep +:+
    voice_text (name r) +:+ section_sep +:+
    metadata_text (image r) (entry_message r).
Proof.
  unfold readme_content, top_text, voice_text, metadata_text.
  norm_app. reflexivity.
Qed.

Lemma section_sep_ne : section_sep <> "".
Proof. discriminate. Qed.

(** The Metadata section holds no section separator when the two values
    are single lines. *)
Lemma metadata_text_one_section i e :
  lacks nl i = true -> lacks nl e = true ->
  split section_sep (metadata_text i e) = [metadata_text i e].
Proof.
  intros Hi He. apply split_no_sep; [exact section_sep_ne|].
  unfold metadata_text, section_sep.
  rewrite find_sep_next_line; [|reflexivity|vm_compute; reflexivity].
  rewrite find_sep_next_line;
    [|rewrite !lacks_app, Hi; reflexivity|vm_compute; reflexivity].
  rewrite find_sep_next_line;
    [|rewrite !lacks_app, He; reflexivity|reflexivity].
  reflexivity.
Qed.

Lemma characteristics_one_section :
  split section_sep characteristics_text = [characteristics_text].
Proof. vm_compute. reflexivity. Qed.

(** No part of the Voice section starts with [Metadata], unless the name
    brings the header. *)
Lemma voice_text_parts n :
  lacks nl n = true -> startswith n "## Metadata" = false ->
  Forall (fun part => startswith part "Metadata" = false)
         (split section_sep (voice_text n)).
Proof.
  intros Hn Hs. apply split_none_startswith; [exact section_sep_ne|reflexivity|].
  unfold contains, voice_text, section_sep.
  change (String nl "## " +:+ "Metadata") with (String nl "## Metadata").
  rewrite find_sep_next_line; [|reflexivity|].
  - rewrite find_sep_next_line; [reflexivity| |reflexivity].
    rewrite lacks_app, Hn. reflexivity.
  - rewrite app_assoc. apply strip_prefix_no_cont; [|vm_compute; reflexivity].
    unfold startswith in Hs.
    destruct (strip_prefix "## Metadata" n); [discriminate|reflexivity].
Qed.

(** No part of the title and prompt starts with [Metadata], unless a
    line of the prompt is the header. *)
Lemma top_text_parts n p :
  lacks nl n = true -> contains metadata_header (String nl p) = false ->
  Forall (fun part => startswith part "Metadata" = false)
         (split section_sep (top_text n p)).
Proof.
  intros Hn Hp. apply split_none_startswith; [exact section_sep_ne|reflexivity|].
  fold metadata_header. unfold contains in *. unfold top_text.
  change metadata_header with (String nl "## Metadata") in *.
  rewrite find_sep_next_line; [|rewrite lacks_app, Hn; reflexivity|reflexivity].
  rewrite <- app_cons.
  destruct (find_sep (String nl "## Metadata") (String nl p)) eqn:E; [discriminate|].
  rewrite (find_sep_line nl "## Metadata" _ "" eq_refl E). reflexivity.
Qed.

(** The first section is the title line, an empty line, and some text,
    unless the prompt begins with a section header. *)
Lemma top_text_head n p :
  lacks nl n = true -> startswith p "## " = false ->
  exists body l,
    split section_sep (top_text n p)
    = (("# " +:+ n) +:+ String nl (String nl body)) :: l.
Proof.
  intros Hn Hp. rewrite split_eq by exact section_sep_ne.
  unfold top_text, section_sep.
  rewrite find_sep_next_line; [|rewrite lacks_app, Hn; reflexivity|reflexivity].
  rewrite find_sep_cons.
  assert (E : strip_prefix (String nl "## ") (String nl (p +:+ String nl "")) = None).
  { change (strip_prefix "## " (p +:+ String nl "") = None).
    apply strip_prefix_no_cont; [|reflexivity].
    unfold startswith in Hp. destruct (strip_prefix "## " p); [discriminate|reflexivity]. }
  rewrite E, prepend_app.
  destruct (find_sep (String nl "## ") (p +:+ String nl "")) as [[b a]|]; simpl.
  - exists b, (split (String nl "## ") a). f_equal. norm_app. reflexivity.
  - eauto.
Qed.

(** When no line of the prompt is a section header, the first section is
    the title and the whole prompt. *)
Lemma top_text_one_section n p :
  lacks nl n = true -> contains section_sep (String nl p) = false ->
  split section_sep (top_text n p) = [top_text n p].
Proof.
  intros Hn Hp. apply split_no_sep; [exact section_sep_ne|].
  unfold contains, section_sep, top_text in *.
  rewrite find_sep_next_line; [|rewrite lacks_app, Hn; reflexivity|reflexivity].
  rewrite <- app_cons.
  destruct (find_sep (String nl "## ") (String nl p)) eqn:E; [discriminate|].
  rewrite (find_sep_line nl "## " _ "" eq_refl E). reflexivity.
Qed.

(** The sections of the document. *)
Lemma readme_content_split r :
  lacks nl (image r) = true -> lacks nl (entry_message r) = true ->
  split section_sep (readme_content r)
  = split section_sep (top_text (name r) (prompt r))
    ++ [characteristics_text]
    ++ split section_sep (voice_text (name r))
    ++ [metadata_text (image r) (entry_message r)].
Proof.
  intros Hi He. rewrite readme_content_sections. unfold section_sep.
  rewrite !split_app_sep by reflexivity. fold section_sep.
  rewrite characteristics_one_section, metadata_text_one_section by assumption.
  reflexivity.
Qed.

Lemma metadata_scan_app l1 l2 md :
  Forall (fun part => startswith part "Metadata" = false) l1 ->
  metadata_scan (l1 ++ l2) md = metadata_scan l2 md.
Proof.
  induction 1 as [|part l1 Hp _ IH]; [reflexivity|].
  simpl. rewrite Hp. exact IH.
Qed.

(** A well-formed list item sets its key. *)
Lemma metadata_line_item md k v :
  lacks ":" k = true ->
  metadata_line md ("- " +:+ k +:+ ": " +:+ v) = Dict.set md k (strip v).
Proof.
  intros Hk. unfold metadata_line, startswith, split1.
  rewrite strip_prefix_app.
  change (drop_chars 2 ("- " +:+ k +:+ ": " +:+ v)) with (k +:+ ": " +:+ v).
  rewrite find_sep_skip, find_sep_here by assumption. simpl.
  rewrite app_nil_r. reflexivity.
Qed.

Lemma metadata_text_lines i e :
  lacks nl i = true -> lacks nl e = true ->
  split NL (metadata_text i e)
  = ["Metadata"; "- " +:+ "image" +:+ ": " +:+ i;
     "- " +:+ "entry_message" +:+ ": " +:+ e; ""].
Proof.
  intros Hi He. unfold metadata_text.
  assert (Hne : NL <> "") by discriminate.
  rewrite split_eq, find_sep_nl by (assumption || reflexivity).
  rewrite split_eq, find_sep_nl
    by (assumption || (rewrite !lacks_app, Hi; reflexivity)).
  rewrite split_eq, find_sep_nl
    by (assumption || (rewrite !lacks_app, He; reflexivity)).
  reflexivity.
Qed.

(** Reading the Metadata section of the document gives the two values,
    stripped. *)
Lemma metadata_section_saved i e :
  lacks nl i = true -> lacks nl e = true ->
  metadata_section [("image", ""); ("entry_message", "")] (metadata_text i e)
  = [("image", strip i); ("entry_message", strip e)].
Proof.
  intros Hi He. unfold metadata_section.
  rewrite metadata_text_lines by assumption.
  cbn [fold_left].
  change (metadata_line [("image", ""); ("entry_message", "")] "Metadata")
    with [("image", ""); ("entry_message", "")].
  rewrite !metadata_line_item by reflexivity.
  reflexivity.
Qed.

Lemma metadata_scan_saved r :
  lacks nl (name r) = true -> startswith (name r) "## Metadata" = false ->
  contains metadata_header (String nl (prompt r)) = false ->
  lacks nl (image r) = true -> lacks nl (entry_message r) = true ->
  metadata_scan (split section_sep (readme_content r))
                [("image", ""); ("entry_message", "")]
  = [("image", strip (image r)); ("entry_message", strip (entry_message r))].
Proof.
  intros Hn Hs Hp Hi He. rewrite readme_content_split by assumption.
  rewrite metadata_scan_app by (apply top_text_parts; assumption).
  rewrite metadata_scan_app by (repeat constructor).
  rewrite metadata_scan_app by (apply voice_text_parts; assumption).
  simpl metadata_scan.
  change (startswith (metadata_text (image r) (entry_message r)) "Metadata")
    with true.
  cbv iota. apply metadata_section_saved; assumption.
Qed.

Lemma app_inv_head a b c : a +:+ b = a +:+ c -> b = c.
Proof.
  induction a as [|x a IH]; intros H; [exact H|].
  rewrite !app_cons in H. injection H as H. auto.
Qed.

Lemma mbind_Ok {A B} (f : A -> pyresult B) a : mbind f (Ok a) = f a.
Proof. reflexivity. Qed.

Lemma index_0 {A} (x : A) l : index (x :: l) 0 = Ok x.
Proof. reflexivity. Qed.

Lemma index_1 {A} (x y : A) l : index (x :: y :: l) 1 = Ok y.
Proof. reflexivity. Qed.

(** What [parse_readme] reads, after the markdown call, in the document of
    [save_persona], given the first section. *)
Lemma parse_readme_saved r body l :
  lacks nl (name r) = true -> startswith (name r) "## Metadata" = false ->
  contains metadata_header (String nl (prompt r)) = false ->
  lacks nl (image r) = true -> lacks nl (entry_message r) = true ->
  split section_sep (top_text (name r) (prompt r))
  = (("# " +:+ name r) +:+ String nl (String nl body)) :: l ->
  parse_sections (readme_content r)
  = Ok {| name := strip (replace "# " "" ("# " +:+ name r));
          prompt := strip body;
          image := strip (image r);
          entry_message := strip (entry_message r) |}.
Proof.
  intros Hn Hs Hp Hi He Htop. unfold parse_sections. cbv zeta.
  rewrite metadata_scan_saved by assumption.
  rewrite readme_content_split, Htop by assumption.
  rewrite <- app_comm_cons, index_0, mbind_Ok.
  unfold split1.
  rewrite find_sep_nl by (rewrite lacks_app, Hn; reflexivity).
  rewrite index_0, mbind_Ok.
  change (NL +:+ NL) with (String nl NL).
  rewrite find_sep_skip by (rewrite lacks_app, Hn; reflexivity).
  change (String nl (String nl body)) with (String nl NL +:+ body).
  rewrite find_sep_here. cbn [prepend].
  rewrite index_1, mbind_Ok. reflexivity.
Qed.

(** [parse_readme] and the markdown call. *)
Lemma parse_readme_converted convert content html :
  convert content = Ok html -> parse_readme convert content = parse_sections content.
Proof. intros H. unfold parse_readme. rewrite H. reflexivity. Qed.

Lemma parse_readme_Ok_inv convert content r :
  parse_readme convert content = Ok r ->
  (exists html, convert content = Ok html) /\ parse_sections content = Ok r.
Proof.
  unfold parse_readme. destruct (convert content) as [html|e]; [|discriminate].
  rewrite mbind_Ok. eauto.
Qed.

Lemma parse_readme_raised convert content e :
  convert content = Raise e -> parse_readme convert content = Raise e.
Proof. intros H. unfold parse_readme. rewrite H. reflexivity. Qed.


(** ** Names of several lines *)

(** No part of the Voice section starts with [Metadata] when the name
    neither begins with the header nor holds it at the start of a line. *)
Lemma voice_text_parts_lines n :
  contains metadata_header n = false -> startswith n "## Metadata" = false ->
  Forall (fun part => startswith part "Metadata" = false)
         (split section_sep (voice_text n)).
Proof.
  intros Hn Hs. apply split_none_startswith; [exact section_sep_ne|reflexivity|].
  fold metadata_header. unfold contains in *. unfold voice_text.
  change metadata_header with (String nl "## Metadata") in *.
  rewrite find_sep_next_line; [|reflexivity|].
  - rewrite app_assoc.
    destruct (find_sep (String nl "## Metadata") n) eqn:E; [discriminate|].
    rewrite (find_sep_no_cont _ _ _ E) by (vm_compute; reflexivity).
    reflexivity.
  - rewrite app_assoc. apply strip_prefix_no_cont; [|vm_compute; reflexivity].
    unfold startswith in Hs.
    destruct (strip_prefix "## Metadata" n); [discriminate|reflexivity].
Qed.

(** No part of the title and prompt starts with [Metadata], unless a line
    of the name after its first, or a line of the prompt, is the header. *)
Lemma top_text_parts_lines n p :
  contains metadata_header n = false ->
  contains metadata_header (String nl p) = false ->
  Forall (fun part => startswith part "Metadata" = false)
         (split section_sep (top_text n p)).
Proof.
  intros Hn Hp. apply split_none_startswith; [exact section_sep_ne|reflexivity|].
  fold metadata_header. unfold contains in *. unfold top_text.
  change metadata_header with (String nl "## Metadata") in *.
  destruct (find_sep (String nl "## Metadata") n) eqn:En; [discriminate|].
  assert (Hs : find_sep (String nl "## Metadata") ("# " +:+ n) = None)
    by (rewrite find_sep_skip, En by reflexivity; reflexivity).
  rewrite (find_sep_line nl "## Metadata" _ _ eq_refl Hs).
  change (String nl (String nl (p +:+ String nl "")))
    with ("" +:+ String nl (String nl p +:+ String nl "")).
  rewrite find_sep_next_line by reflexivity.
  destruct (find_sep (String nl "## Metadata") (String nl p)) eqn:E; [discriminate|].
  rewrite (find_sep_line nl "## Metadata" _ "" eq_refl E). reflexivity.
Qed.

(** The first section is the title, an empty line, and some text, unless
    a line of the name after its first, or the first line of the prompt,
    is a section header. *)
Lemma top_text_head_lines n p :
  contains section_sep n = false -> startswith p "## " = false ->
  exists body l,
    split section_sep (top_text n p)
    = (("# " +:+ n) +:+ String nl (String nl body)) :: l.
Proof.
  intros Hn Hp. rewrite split_eq by exact section_sep_ne.
  unfold contains in Hn. unfold top_text, section_sep in *.
  destruct (find_sep (String nl "## ") n) eqn:En; [discriminate|].
  assert (Hs : find_sep (String nl "## ") ("# " +:+ n) = None)
    by (rewrite find_sep_skip, En by reflexivity; reflexivity).
  rewrite (find_sep_line nl "## " _ _ eq_refl Hs).
  change (String nl (String nl (p +:+ String nl "")))
    with ("" +:+ String nl (String nl (p +:+ String nl ""))).
  rewrite find_sep_next_line by reflexivity.
  rewrite find_sep_cons.
  assert (E : strip_prefix (String nl "## ") (String nl (p +:+ String nl "")) = None).
  { change (strip_prefix "## " (p +:+ String nl "") = None).
    apply strip_prefix_no_cont; [|reflexivity].
    unfold startswith in Hp. destruct (strip_prefix "## " p); [discriminate|reflexivity]. }
  rewrite E, !prepend_app.
  destruct (find_sep (String nl "## ") (p +:+ String nl "")) as [[b a]|]; simpl.
  - exists b, (split (String nl "## ") a). f_equal. norm_app. reflexivity.
  - eauto.
Qed.

Lemma metadata_scan_saved_lines r :
  contains metadata_header (name r) = false ->
  startswith (name r) "## Metadata" = false ->
  contains metadata_header (String nl (prompt r)) = false ->
  lacks nl (image r) = true -> lacks nl (entry_message r) = true ->
  metadata_scan (split section_sep (readme_content r))
                [("image", ""); ("entry_message", "")]
  = [("image", strip (image r)); ("entry_message", strip (entry_message r))].
Proof.
  intros Hn Hs Hp Hi He. rewrite readme_content_split by assumption.
  rewrite metadata_scan_app by (apply top_text_parts_lines; assumption).
  rewrite metadata_scan_app by (repeat constructor).
  rewrite metadata_scan_app by (apply voice_text_parts_lines; assumption).
  simpl metadata_scan.
  change (startswith (metadata_text (image r) (entry_message r)) "Metadata")
    with true.
  cbv iota. apply metadata_section_saved; assumption.
Qed.

(** What [parse_readme] reads of the metadata, after the markdown call, in
    the document of [save_persona], whatever the number of lines of the
    name. *)
Lemma parse_sections_saved_metadata r body l :
  contains metadata_header (name r) = false ->
  startswith (name r) "## Metadata" = false ->
  contains metadata_header (String nl (prompt r)) = false ->
  lacks nl (image r) = true -> lacks nl (entry_message r) = true ->
  split section_sep (top_text (name r) (prompt r))
  = (("# " +:+ name r) +:+ String nl (String nl body)) :: l ->
  exists nm pr,
    parse_sections (readme_content r)
    = Ok {| name := nm; prompt := pr;
            image := strip (image r);
            entry_message := strip (entry_message r) |}.
Proof.
  intros Hn Hs Hp Hi He Htop. unfold parse_sections. cbv zeta.
  rewrite metadata_scan_saved_lines by assumption.
  rewrite readme_content_split, Htop by assumption.
  rewrite <- app_comm_cons, index_0, mbind_Ok.
  unfold split1.
  set (section0 := ("# " +:+ name r) +:+ String nl (String nl body)).
  assert (Ht : exists t, index match find_sep NL section0 with
                               | Some (b, a) => [b; a]
                               | None => [section0]
                               end 0 = Ok t).
  { destruct (find_sep NL section0) as [[b a]|]; eauto. }
  destruct Ht as [t ->]. rewrite mbind_Ok.
  destruct (find_sep_exists (NL +:+ NL) ("# " +:+ name r) body) as [b [a E]].
  change (("# " +:+ name r) +:+ (NL +:+ NL) +:+ body) with section0 in E.
  rewrite E, index_1, mbind_Ok. eauto.
Qed.


End DocumentFacts.

(** * The store *)

Lemma example_world_wf : wf_world example_world.
Proof. repeat constructor; simpl; (discriminate || lia). Qed.

Lemma wf_world_key w k l :
  wf_world w -> Dict.get (personas w) k = Some l ->
  k <> "" /\ l < length (heap w).
Proof.
  unfold wf_world. induction 1 as [|[k' l'] d [Hk Hl] _ IH]; simpl; [discriminate|].
  destruct (String.eqb_spec k k') as [->|]; [|exact IH].
  intros [= <-]. auto.
Qed.

Lemma truthy_ne k : k <> "" -> truthy k = true.
Proof.
  unfold truthy. intros H. destruct (String.eqb_spec k ""); [contradiction|reflexivity].
Qed.

(** C4: for a key that is not in the store, [update_persona_image] gives
    [False] (a value: nothing is raised) and leaves the mapping, the
    persona objects and the files as they were. *)
Theorem update_persona_image_unknown_key (w : World) (k path : string) :
  Dict.get (personas w) k = None ->
  fst (update_persona_image k path w) = false
  /\ personas (snd (update_persona_image k path w)) = personas w
  /\ heap (snd (update_persona_image k path w)) = heap w
  /\ files (snd (update_persona_image k path w)) = files w.
Proof.
  intros H. unfold update_persona_image. rewrite H. simpl. auto.
Qed.

Lemma update_persona_image_unknown_key_witness :
  fst (update_persona_image "zed" "local_images/zed.png" example_world) = false
  /\ personas (snd (update_persona_image "zed" "local_images/zed.png" example_world))
     = personas example_world
  /\ heap (snd (update_persona_image "zed" "local_images/zed.png" example_world))
     = heap example_world
  /\ files (snd (update_persona_image "zed" "local_images/zed.png" example_world))
     = files example_world.
Proof.
  apply (update_persona_image_unknown_key example_world "zed" "local_images/zed.png").
  reflexivity.
Defined.

(** C5: for a key of the store, [needs_image_upload] is [True] when the
    image is empty, [True] when it is not empty and does not hold the
    domain, and [False] when it is not empty and holds the domain. *)
Theorem needs_image_upload_table (w : World) (k d : string) (l : nat) (p : Persona) :
  Dict.get (personas w) k = Some l -> heap w !! l = Some p ->
  (image p = "" -> needs_image_upload k d w = true)
  /\ (image p <> "" -> contains d (image p) = false ->
      needs_image_upload k d w = true)
  /\ (image p <> "" -> contains d (image p) = true ->
      needs_image_upload k d w = false).
Proof.
  intros Hk Hl. unfold needs_image_upload. rewrite Hk, Hl. cbv zeta.
  repeat split.
  - intros ->. reflexivity.
  - intros Hne ->. rewrite andb_false_r. reflexivity.
  - intros Hne ->. rewrite (truthy_ne _ Hne). reflexivity.
Qed.

Lemma needs_image_upload_table_witness :
  (image (mkPersona "Bob" "I am Bob." "https://utfs.io/uploadthing.com/b.png" "") = "" ->
   needs_image_upload "bob" "uploadthing.com" example_world = true)
  /\ (image (mkPersona "Bob" "I am Bob." "https://utfs.io/uploadthing.com/b.png" "") <> "" ->
      contains "uploadthing.com"
        (image (mkPersona "Bob" "I am Bob." "https://utfs.io/uploadthing.com/b.png" ""))
      = false ->
      needs_image_upload "bob" "uploadthing.com" example_world = true)
  /\ (image (mkPersona "Bob" "I am Bob." "https://utfs.io/uploadthing.com/b.png" "") <> "" ->
      contains "uploadthing.com"
        (image (mkPersona "Bob" "I am Bob." "https://utfs.io/uploadthing.com/b.png" ""))
      = true ->
      needs_image_upload "bob" "uploadthing.com" example_world = false).
Proof.
  apply (needs_image_upload_table example_world "bob" "uploadthing.com" 1); reflexivity.
Defined.

(** The reading "false whenever the image is empty" does not hold: the
    persona without image needs an upload. *)
Example needs_image_upload_empty_image :
  needs_image_upload "nova" "uploadthing.com" example_world = true.
Proof. reflexivity. Qed.

(** C10: for a key that is not in the store, [needs_image_upload] is
    [False], whatever the domain. *)
Theorem needs_image_upload_unknown_key (w : World) (k d : string) :
  Dict.get (personas w) k = None -> needs_image_upload k d w = false.
Proof. intros H. unfold needs_image_upload. rewrite H. reflexivity. Qed.

Lemma needs_image_upload_unknown_key_witness :
  needs_image_upload "zed" "uploadthing.com" example_world = false.
Proof.
  apply (needs_image_upload_unknown_key example_world "zed" "uploadthing.com").
  reflexivity.
Defined.

(** C6 as stated fails: the empty string is not a key of the store, and
    [get_persona] given it draws a persona instead of raising; on an empty
    store the draw raises [IndexError], not the "not found" error. *)
Lemma get_persona_empty_name_not_KeyError :
  Dict.get (personas example_world) "" = None
  /\ fst (get_persona (Some "") 1 example_world) = Ok 2
  /\ fst (get_persona (Some "") 0 (mkWorld [] [] [] [] []))
     = Raise (IndexError "Cannot choose from an empty sequence").
Proof. repeat split. Qed.

(** C6 (amended): for a non-empty key that is not in the store, also when
    the store is empty, [get_persona] raises the "not found" [KeyError]
    whose message lists the keys of the store, and changes nothing. *)
Theorem get_persona_unknown_key (w : World) (k : string) (rnd : nat) :
  k <> "" -> Dict.get (personas w) k = None ->
  get_persona (Some k) rnd w
  = (Raise (KeyError ("Persona '" +:+ k +:+ "' not found. Valid options: "
                      +:+ join ", " (Dict.keys (personas w)))), w).
Proof.
  intros Hne H. unfold get_persona, named_persona.
  rewrite (truthy_ne _ Hne), H. reflexivity.
Qed.

Lemma get_persona_unknown_key_witness :
  get_persona (Some "zed") 0 example_world
  = (Raise (KeyError ("Persona '" +:+ "zed" +:+ "' not found. Valid options: "
                      +:+ join ", " (Dict.keys (personas example_world)))),
     example_world).
Proof.
  apply (get_persona_unknown_key example_world "zed" 0); [discriminate|reflexivity].
Defined.

(** The message on the example store, and on an empty one. *)
Example get_persona_unknown_key_message :
  fst (get_persona (Some "zed") 0 example_world)
  = Raise (KeyError "Persona 'zed' not found. Valid options: nova, bob")
  /\ fst (get_persona (Some "zed") 0 (mkWorld [] [] [] [] []))
     = Raise (KeyError "Persona 'zed' not found. Valid options: ").
Proof. split; reflexivity. Qed.

(** C7: in a well-formed store (its keys are names of directories, so
    none is empty), for a key of the store, [get_persona] returns a new
    object whose prompt is the stored prompt followed by the instructions
    and whose other fields are the stored ones; the mapping and every
    object that was in the heap, the stored record among them, are
    unchanged. *)
Theorem get_persona_returns_copy (w : World) (k : string) (rnd l : nat) (p : Persona) :
  wf_world w -> Dict.get (personas w) k = Some l -> heap w !! l = Some p ->
  exists l' w',
    get_persona (Some k) rnd w = (Ok l', w')
    /\ heap w' !! l'
       = Some (mkPersona (name p) (prompt p +:+ interaction_instructions)
                         (image p) (entry_message p))
    /\ l' <> l
    /\ personas w' = personas w
    /\ heap w' !! l = Some p
    /\ (forall j, j < length (heap w) -> heap w' !! j = heap w !! j).
Proof.
  intros Hwf Hk Hl.
  destruct (wf_world_key w k l Hwf Hk) as [Hne Hlt].
  unfold get_persona, named_persona, dict_copy.
  rewrite (truthy_ne _ Hne), Hk, Hl.
  unfold instruct. cbn [heap logger set_heap].
  rewrite list_lookup_middle by reflexivity.
  assert (Himg : (if negb (truthy (image p))
                  then set_image "" p else p) = p).
  { unfold truthy. destruct (String.eqb_spec (image p) ""); [|reflexivity].
    destruct p; simpl in *; subst; reflexivity. }
  eexists _, _. split; [reflexivity|].
  destruct (negb (truthy (image p))) eqn:Ht; cbn [heap set_heap logger personas];
    repeat split.
  - rewrite list_lookup_alter_eq, list_lookup_alter_eq, list_lookup_middle by reflexivity.
    simpl. rewrite Himg. reflexivity.
  - lia.
  - rewrite !list_lookup_alter_ne by lia. rewrite lookup_app_l by lia. exact Hl.
  - intros j Hj. rewrite !list_lookup_alter_ne by lia. apply lookup_app_l. exact Hj.
  - rewrite list_lookup_alter_eq, list_lookup_middle by reflexivity. reflexivity.
  - lia.
  - rewrite !list_lookup_alter_ne by lia. rewrite lookup_app_l by lia. exact Hl.
  - intros j Hj. rewrite !list_lookup_alter_ne by lia. apply lookup_app_l. exact Hj.
Qed.

Lemma get_persona_returns_copy_witness :
  exists l' w',
    get_persona (Some "nova") 0 example_world = (Ok l', w')
    /\ heap w' !! l'
       = Some (mkPersona (name (mkPersona "Nova" "I am Nova." "" "hi"))
                         (prompt (mkPersona "Nova" "I am Nova." "" "hi")
                          +:+ interaction_instructions)
                         (image (mkPersona "Nova" "I am Nova." "" "hi"))
                         (entry_message (mkPersona "Nova" "I am Nova." "" "hi")))
    /\ l' <> 0
    /\ personas w' = personas example_world
    /\ heap w' !! 0 = Some (mkPersona "Nova" "I am Nova." "" "hi")
    /\ (forall j, j < length (heap example_world) ->
                  heap w' !! j = heap example_world !! j).
Proof.
  apply (get_persona_returns_copy example_world "nova" 0 0
           (mkPersona "Nova" "I am Nova." "" "hi")).
  - repeat constructor; simpl; (discriminate || lia).
  - reflexivity.
  - reflexivity.
Defined.

(** The store that [load_personas] builds is well formed when the
    directory entries have names. *)
Lemma load_entries_wf convert entries : forall acc w acc' w',
  Forall (fun e => entry_name e <> "") entries ->
  Forall (fun kv => fst kv <> "" /\ snd kv < length (heap w)) acc ->
  load_entries convert entries acc w = (Ok acc', w') ->
  Forall (fun kv => fst kv <> "" /\ snd kv < length (heap w')) acc'.
Proof.
  induction entries as [|e rest IH]; intros acc w acc' w' Hn Hacc H;
    cbn [load_entries] in H.
  - injection H as <- <-. exact Hacc.
  - inversion Hn as [|? ? He Hrest]; subst.
    destruct (negb (is_dir e)); [exact (IH _ _ _ _ Hrest Hacc H)|].
    destruct (readme e) as [content|];
      [|exact (IH acc (logger WARNING _ w) _ _ Hrest Hacc H)].
    destruct (parse_readme convert content) as [p|ex]; [|discriminate].
    eapply IH; [exact Hrest| |exact H].
    cbn [heap set_heap]. rewrite length_app. simpl.
    assert (Hacc' : Forall (fun kv => fst kv <> "" /\ snd kv < length (heap w) + 1) acc).
    { eapply Forall_impl; [exact Hacc|]. simpl. intros kv [? ?]. split; [assumption|lia]. }
    clear - He Hacc'. induction acc as [|[k' l'] acc IHacc]; simpl.
    + repeat constructor; simpl; [assumption|lia].
    + inversion Hacc' as [|? ? [Hk Hl] Hrest]; subst. simpl in *.
      destruct (String.eqb (entry_name e) k').
      * constructor; [simpl; split; [assumption|lia]|assumption].
      * constructor; [simpl; auto|auto].
Qed.

(** * The meeting-bot request *)

Section MeetingBotRequest.

Variable HttpUrl : Type.
Variable validate_url : string -> option HttpUrl.
Variable Any : Type.

(** C9: the request that [create_meeting_bot] constructs has the
    deduplication key [<name>-BaaS-<id>] and, as input and as output
    endpoint of its streaming object, [<base url>/ws/<id>]; no request is
    constructed only when the avatar URL given is refused by the
    validation of the request model. *)
Theorem create_meeting_bot_request_fields
  (meeting_url w i n : string) (recorder_only : bool)
  (bot_image entry_message : option string) (extra : option (Dict.t Any))
  (frequency : string) :
  match MeetingBaas.create_meeting_bot_request HttpUrl validate_url Any
          meeting_url w i n recorder_only bot_image entry_message extra
          frequency with
  | Ok request =>
      MeetingBaas.deduplication_key _ _ request = Some (n +:+ "-BaaS-" +:+ i)
      /\ MeetingBaas.input (MeetingBaas.streaming _ _ request) = w +:+ "/ws/" +:+ i
      /\ MeetingBaas.output (MeetingBaas.streaming _ _ request) = w +:+ "/ws/" +:+ i
  | Raise e =>
      e = ValidationError
      /\ exists u, bot_image = Some u /\ validate_url u = None
  end.
Proof.
  unfold MeetingBaas.create_meeting_bot_request, MeetingBaas.validate_bot_image.
  destruct bot_image as [u|]; simpl.
  - destruct (validate_url u) eqn:E; simpl.
    + destruct recorder_only; simpl; auto.
    + eauto.
  - destruct recorder_only; simpl; auto.
Qed.

End MeetingBotRequest.

(** * Saving, then parsing *)

Import PyStrFacts DocumentFacts.

(** C1 as stated fails: a record with a name and a prompt whose entry
    message has two lines comes back with the first line only, whatever
    the markdown conversion does. *)
Lemma roundtrip_two_line_entry :
  name two_line_entry <> "" /\ prompt two_line_entry <> ""
  /\ forall convert : string -> pyresult string,
       (forall html, convert (readme_content two_line_entry) = Ok html ->
          parse_readme convert (readme_content two_line_entry)
          = Ok (mkPersona "Nova" "I am Nova." "" "Hi!"))
       /\ parse_readme convert (readme_content two_line_entry) <> Ok two_line_entry.
Proof.
  split; [discriminate|]. split; [discriminate|]. intros convert.
  assert (E : parse_sections (readme_content two_line_entry)
              = Ok (mkPersona "Nova" "I am Nova." "" "Hi!"))
    by (vm_compute; reflexivity).
  split.
  - intros html H. rewrite (parse_readme_converted _ _ _ H). exact E.
  - intros H. apply parse_readme_Ok_inv in H as [_ H].
    rewrite E in H. discriminate.
Qed.

(** What the statements after the markdown call give for any prompt, of
    one paragraph or more: when the name is one stripped line without
    ["# "], the prompt is stripped and none of its lines begins with
    ["## "], and the image and the entry message are single stripped lines,
    the record comes back. *)
Lemma parse_readme_saved_record (r : Persona) :
  single_line (name r) -> stripped (name r) -> contains "# " (name r) = false ->
  stripped (prompt r) -> no_line_starts "## " (prompt r) ->
  single_line (image r) -> stripped (image r) ->
  single_line (entry_message r) -> stripped (entry_message r) ->
  parse_sections (readme_content r) = Ok r.
Proof.
  unfold single_line, stripped, no_line_starts.
  intros Hn Hns Hnc Hps Hp Hi His He Hes.
  assert (Hm : startswith (name r) "## Metadata" = false).
  { destruct (startswith (name r) "## Metadata") eqn:E; [|reflexivity].
    rewrite (startswith_contains _ _ "# " E eq_refl) in Hnc. discriminate. }
  assert (Hh : contains metadata_header (String nl (prompt r)) = false).
  { destruct (contains metadata_header (String nl (prompt r))) eqn:E; [|reflexivity].
    apply (contains_shorter section_sep "Metadata") in E.
    unfold section_sep in E. congruence. }
  rewrite (parse_readme_saved r (prompt r +:+ String nl "") [])
    by (assumption || (apply top_text_one_section; assumption)).
  assert (Hne : "# " <> "") by discriminate.
  rewrite replace_eq, find_sep_here, replace_eq by exact Hne.
  unfold contains in Hnc.
  destruct (find_sep "# " (name r)) as [[? ?]|]; [discriminate|].
  rewrite !app_nil_l, Hns, His, Hes, (strip_app_space _ nl eq_refl Hps).
  destruct r; reflexivity.
Qed.

(** C1 (amended): when the markdown conversion of the document does not
    raise, the name is one stripped line without ["# "], the prompt is one
    stripped paragraph (it has no empty line) none of whose lines begins
    with ["## "], and the image and the entry message are single stripped
    lines, parsing the document of [save_persona] gives the four fields
    back. *)
Theorem parse_readme_roundtrip
  (convert : string -> pyresult string) (r : Persona) (html : string) :
  convert (readme_content r) = Ok html ->
  single_line (name r) -> stripped (name r) -> contains "# " (name r) = false ->
  stripped (prompt r) -> one_paragraph (prompt r) ->
  no_line_starts "## " (prompt r) ->
  single_line (image r) -> stripped (image r) ->
  single_line (entry_message r) -> stripped (entry_message r) ->
  parse_readme convert (readme_content r) = Ok r.
Proof.
  intros Hc Hn Hns Hnc Hps _ Hp Hi His He Hes.
  rewrite (parse_readme_converted _ _ _ Hc).
  apply parse_readme_saved_record; assumption.
Qed.

Lemma parse_readme_roundtrip_witness :
  parse_readme convert_plain (readme_content nova) = Ok nova.
Proof.
  apply (parse_readme_roundtrip convert_plain nova
           ("<p>" +:+ readme_content nova +:+ "</p>"));
    reflexivity.
Defined.

(** C8 as stated fails: a prompt with a line [## Metadata] takes the place
    of the Metadata section, and the image and entry message read back,
    when any are, are not the saved ones, whatever the markdown conversion
    does. *)
Lemma forged_metadata_read_back :
  contains section_sep (prompt forged_metadata) = true
  /\ image forged_metadata <> "evil"
  /\ entry_message forged_metadata <> ""
  /\ forall convert : string -> pyresult string,
       (forall html, convert (readme_content forged_metadata) = Ok html ->
          parse_readme convert (readme_content forged_metadata)
          = Ok (mkPersona "Nova" "I am Nova." "evil" ""))
       /\ (forall r', parse_readme convert (readme_content forged_metadata) = Ok r' ->
             image r' = "evil" /\ entry_message r' = "").
Proof.
  split; [reflexivity|]. split; [discriminate|]. split; [discriminate|].
  intros convert.
  assert (E : parse_sections (readme_content forged_metadata)
              = Ok (mkPersona "Nova" "I am Nova." "evil" ""))
    by (vm_compute; reflexivity).
  split.
  - intros html H. rewrite (parse_readme_converted _ _ _ H). exact E.
  - intros r' H. apply parse_readme_Ok_inv in H as [_ H].
    rewrite E in H. injection H as <-. split; reflexivity.
Qed.

(** C8 (amended): when the markdown conversion of the document does not
    raise, a line of the prompt after the first begins with ["## "], but
    neither its first line does nor any line begins with ["## Metadata"],
    no line of the name after its first begins with ["## "] and the name
    does not begin with ["## Metadata"], and the image and the entry
    message are single stripped lines, the document of [save_persona]
    parses and the image and the entry message read are the saved ones. *)
Theorem parse_readme_metadata_with_headers
  (convert : string -> pyresult string) (r : Persona) (html : string) :
  convert (readme_content r) = Ok html ->
  contains section_sep (prompt r) = true ->
  startswith (prompt r) "## " = false ->
  no_line_starts "## Metadata" (prompt r) ->
  contains section_sep (name r) = false ->
  startswith (name r) "## Metadata" = false ->
  single_line (image r) -> stripped (image r) ->
  single_line (entry_message r) -> stripped (entry_message r) ->
  exists r',
    parse_readme convert (readme_content r) = Ok r'
    /\ image r' = image r /\ entry_message r' = entry_message r.
Proof.
  unfold single_line, stripped, no_line_starts.
  intros Hc _ Hp Hh Hn Hm Hi His He Hes.
  rewrite (parse_readme_converted _ _ _ Hc).
  assert (Hnm : contains metadata_header (name r) = false).
  { destruct (contains metadata_header (name r)) eqn:E; [|reflexivity].
    apply (contains_shorter section_sep "Metadata") in E. congruence. }
  destruct (top_text_head_lines (name r) (prompt r) Hn Hp) as [body [l Htop]].
  destruct (parse_sections_saved_metadata r body l Hnm Hm Hh Hi He Htop)
    as [nm [pr ->]].
  eexists. split; [reflexivity|]. simpl. auto.
Qed.

Lemma parse_readme_metadata_with_headers_witness :
  exists r',
    parse_readme convert_plain (readme_content skills_header) = Ok r'
    /\ image r' = image skills_header
    /\ entry_message r' = entry_message skills_header.
Proof.
  apply (parse_readme_metadata_with_headers convert_plain skills_header
           ("<p>" +:+ readme_content skills_header +:+ "</p>"));
    reflexivity.
Defined.

(** C2: on a document whose first section has two paragraphs after the
    title, and that the markdown call accepts, the prompt is both
    paragraphs, not the first one only. *)
Theorem parse_readme_prompt_two_paragraphs
  (convert : string -> pyresult string) (html : string) :
  convert ("# T" +:+ NL +:+ NL +:+ "P1" +:+ NL +:+ NL +:+ "P2" +:+ NL) = Ok html ->
  parse_readme convert
    ("# T" +:+ NL +:+ NL +:+ "P1" +:+ NL +:+ NL +:+ "P2" +:+ NL)
  = Ok (mkPersona "T" ("P1" +:+ NL +:+ NL +:+ "P2") "" "").
Proof.
  intros H. rewrite (parse_readme_converted _ _ _ H). vm_compute. reflexivity.
Qed.

Lemma parse_readme_prompt_two_paragraphs_witness :
  parse_readme convert_plain
    ("# T" +:+ NL +:+ NL +:+ "P1" +:+ NL +:+ NL +:+ "P2" +:+ NL)
  = Ok (mkPersona "T" ("P1" +:+ NL +:+ NL +:+ "P2") "" "").
Proof.
  apply (parse_readme_prompt_two_paragraphs convert_plain
           ("<p>" +:+ ("# T" +:+ NL +:+ NL +:+ "P1" +:+ NL +:+ NL +:+ "P2" +:+ NL)
            +:+ "</p>")).
  reflexivity.
Defined.

(** C3: on a title line with a second ["# "], in a document that the
    markdown call accepts, the name has lost both markers, not the leading
    one only. *)
Theorem parse_readme_name_inner_marker
  (convert : string -> pyresult string) (html : string) :
  convert ("# C# Guru" +:+ NL +:+ NL +:+ "I code." +:+ NL) = Ok html ->
  parse_readme convert ("# C# Guru" +:+ NL +:+ NL +:+ "I code." +:+ NL)
  = Ok (mkPersona "CGuru" "I code." "" "").
Proof.
  intros H. rewrite (parse_readme_converted _ _ _ H). vm_compute. reflexivity.
Qed.

Lemma parse_readme_name_inner_marker_witness :
  parse_readme convert_plain ("# C# Guru" +:+ NL +:+ NL +:+ "I code." +:+ NL)
  = Ok (mkPersona "CGuru" "I code." "" "").
Proof.
  apply (parse_readme_name_inner_marker convert_plain
           ("<p>" +:+ ("# C# Guru" +:+ NL +:+ NL +:+ "I code." +:+ NL) +:+ "</p>")).
  reflexivity.
Defined.

(** * Further properties of [parse_readme] *)

Lemma split_first_section content :
  exists l, split section_sep content = first_section content :: l.
Proof.
  rewrite split_eq by exact section_sep_ne. unfold first_section.
  destruct (find_sep section_sep content) as [[b a]|]; eauto.
Qed.

Lemma parse_sections_raises_iff content :
  match parse_sections content with
  | Ok _ => contains (NL +:+ NL) (first_section content) = true
  | Raise e =>
      e = IndexError "list index out of range"
      /\ contains (NL +:+ NL) (first_section content) = false
  end.
Proof.
  unfold parse_sections. cbv zeta.
  destruct (split_first_section content) as [l ->].
  rewrite index_0, mbind_Ok. unfold split1, contains.
  assert (Ht : exists t, index match find_sep NL (first_section content) with
                               | Some (b, a) => [b; a]
                               | None => [first_section content]
                               end 0 = Ok t).
  { destruct (find_sep NL (first_section content)) as [[b a]|]; eauto. }
  destruct Ht as [t ->]. rewrite mbind_Ok.
  destruct (find_sep (NL +:+ NL) (first_section content)) as [[b a]|].
  - rewrite index_1, mbind_Ok. reflexivity.
  - split; reflexivity.
Qed.

(** X1: [parse_readme] raises what the markdown conversion raises; when
    the conversion does not raise, it raises [IndexError] exactly when the
    first section (the text before the first ["\n## "]) holds no empty
    line, and in every other case it returns a record. *)
Theorem parse_readme_raises_iff
  (convert : string -> pyresult string) (content : string) :
  match parse_readme convert content with
  | Ok _ =>
      (exists html, convert content = Ok html)
      /\ contains (NL +:+ NL) (first_section content) = true
  | Raise e =>
      convert content = Raise e
      \/ ((exists html, convert content = Ok html)
          /\ e = IndexError "list index out of range"
          /\ contains (NL +:+ NL) (first_section content) = false)
  end.
Proof.
  unfold parse_readme. destruct (convert content) as [html|e] eqn:Hc.
  - rewrite mbind_Ok. pose proof (parse_sections_raises_iff content) as H.
    destruct (parse_sections content); [eauto|].
    right. destruct H as [-> H]. eauto.
  - left. reflexivity.
Qed.

Lemma lacks_single c s : find_sep (String c "") s = None -> lacks c s = true.
Proof.
  induction s as [|a s IH]; [reflexivity|]. rewrite find_sep_cons.
  simpl strip_prefix. simpl lacks.
  destruct (Ascii.eqb c a); [discriminate|].
  destruct (find_sep (String c "") s) as [[? ?]|]; [discriminate|].
  intros _. apply IH. reflexivity.
Qed.

Lemma lacks_lstrip c s : lacks c s = true -> lacks c (lstrip s) = true.
Proof.
  induction s as [|a s IH]; [reflexivity|]. simpl.
  intros H. destruct (is_space a); [|exact H].
  apply andb_true_iff in H as [_ H]. auto.
Qed.

Lemma lacks_rstrip c s : lacks c s = true -> lacks c (rstrip s) = true.
Proof.
  induction s as [|a s IH]; [reflexivity|]. simpl.
  intros H. apply andb_true_iff in H as [Ha H]. specialize (IH H).
  destruct (rstrip s) as [|b r].
  - destruct (is_space a); [reflexivity|]. simpl. rewrite Ha. reflexivity.
  - change (lacks c (String a (String b r)))
      with (negb (Ascii.eqb c a) && lacks c (String b r)).
    rewrite Ha, IH. reflexivity.
Qed.

Lemma lacks_strip c s : lacks c s = true -> lacks c (strip s) = true.
Proof. intros H. apply lacks_rstrip, lacks_lstrip, H. Qed.

Lemma lacks_drop_chars c n s : lacks c s = true -> lacks c (drop_chars n s) = true.
Proof.
  revert s. induction n as [|n IH]; intros [|a s] H; try exact H.
  simpl in *. apply andb_true_iff in H as [_ H]. auto.
Qed.

Lemma lacks_find_sep_parts c sep s b a :
  lacks c s = true -> find_sep sep s = Some (b, a) ->
  lacks c b = true /\ lacks c a = true.
Proof.
  intros H E. apply find_sep_Some in E. subst s.
  rewrite !lacks_app in H.
  apply andb_true_iff in H as [Hb H]. apply andb_true_iff in H as [_ Ha]. auto.
Qed.

Lemma lacks_replace_empty c old s :
  old <> "" -> lacks c s = true -> lacks c (replace old "" s) = true.
Proof.
  intros Hne.
  remember (String.length s) as n eqn:Hn.
  assert (Hle : String.length s <= n) by lia. clear Hn.
  revert s Hle. induction n as [|n IH]; intros s Hle H;
    rewrite replace_eq by assumption;
    (destruct (find_sep old s) as [[b a]|] eqn:E; [|exact H]);
    pose proof (find_sep_shorter _ _ _ _ Hne E) as Hlt; [lia|].
  destruct (lacks_find_sep_parts c old s b a H E) as [Hb Ha].
  rewrite app_nil_l, lacks_app, Hb. apply IH; [lia|exact Ha].
Qed.

(** The first line of a text holds no line break. *)
Lemma first_line_lacks_nl s t :
  index (split1 NL s) 0 = Ok t -> lacks nl t = true.
Proof.
  unfold split1. destruct (find_sep NL s) as [[b a]|] eqn:E.
  - rewrite index_0. intros [= <-].
    apply lacks_single. apply (find_sep_before NL s b a); [discriminate|exact E].
  - rewrite index_0. intros [= <-]. apply lacks_single, E.
Qed.

Lemma dict_set_clean md k v :
  Forall (fun kv => clean_value (snd kv)) md -> clean_value v ->
  Forall (fun kv => clean_value (snd kv)) (Dict.set md k v).
Proof.
  intros Hmd Hv. induction Hmd as [|[k' v'] md Hkv Hmd IH]; simpl.
  - constructor; [exact Hv|constructor].
  - destruct (String.eqb k k'); constructor; assumption.
Qed.

Lemma dict_get_default_clean md k :
  Forall (fun kv => clean_value (snd kv)) md ->
  clean_value (Dict.get_default md k "").
Proof.
  unfold Dict.get_default. intros Hmd.
  induction Hmd as [|[k' v'] md Hkv _ IH]; simpl.
  - split; reflexivity.
  - destruct (String.eqb k k'); [exact Hkv|exact IH].
Qed.

Lemma metadata_line_clean md line :
  lacks nl line = true ->
  Forall (fun kv => clean_value (snd kv)) md ->
  Forall (fun kv => clean_value (snd kv)) (metadata_line md line).
Proof.
  intros Hl Hmd. unfold metadata_line.
  destruct (startswith line "- "); [|exact Hmd].
  unfold split1.
  destruct (find_sep ": " (drop_chars 2 line)) as [[key value]|] eqn:E; [|exact Hmd].
  apply dict_set_clean; [exact Hmd|].
  destruct (lacks_find_sep_parts nl _ _ _ _ (lacks_drop_chars nl 2 line Hl) E) as [_ Hv].
  split; [apply strip_idem|apply lacks_strip, Hv].
Qed.

Lemma metadata_section_clean md section :
  Forall (fun kv => clean_value (snd kv)) md ->
  Forall (fun kv => clean_value (snd kv)) (metadata_section md section).
Proof.
  unfold metadata_section.
  destruct (split_complete NL section ltac:(discriminate)) as [Hparts _].
  revert md. induction Hparts as [|line lines Hline _ IH]; intros md Hmd; simpl.
  - exact Hmd.
  - apply IH, metadata_line_clean; [apply lacks_single, Hline|exact Hmd].
Qed.

Lemma metadata_scan_clean sections md :
  Forall (fun kv => clean_value (snd kv)) md ->
  Forall (fun kv => clean_value (snd kv)) (metadata_scan sections md).
Proof.
  intros Hmd. induction sections as [|s rest IH]; simpl; [exact Hmd|].
  destruct (startswith s "Metadata"); [apply metadata_section_clean, Hmd|exact IH].
Qed.

(** The record that [parse_readme] builds, when it builds one. *)
Lemma parse_readme_Ok content r :
  parse_sections content = Ok r ->
  exists title body,
    index (split1 NL (first_section content)) 0 = Ok title
    /\ index (split1 (NL +:+ NL) (first_section content)) 1 = Ok body
    /\ name r = strip (replace "# " "" title)
    /\ prompt r = strip body
    /\ image r
       = Dict.get_default
           (metadata_scan (split section_sep content)
                          [("image", ""); ("entry_message", "")]) "image" ""
    /\ entry_message r
       = Dict.get_default
           (metadata_scan (split section_sep content)
                          [("image", ""); ("entry_message", "")])
           "entry_message" "".
Proof.
  unfold parse_sections. cbv zeta.
  destruct (split_first_section content) as [l Hl]. rewrite Hl at 1.
  rewrite index_0, mbind_Ok.
  destruct (index (split1 NL (first_section content)) 0) as [title|e];
    [|discriminate].
  rewrite mbind_Ok.
  destruct (index (split1 (NL +:+ NL) (first_section content)) 1) as [body|e];
    [|discriminate].
  rewrite mbind_Ok. intros [= <-]. exists title, body. repeat split.
Qed.

(** X2: no field of a record that [parse_readme] returns has white space
    at its beginning or at its end. *)
Theorem parse_readme_fields_stripped
  (convert : string -> pyresult string) (content : string) (r : Persona) :
  parse_readme convert content = Ok r ->
  stripped (name r) /\ stripped (prompt r)
  /\ stripped (image r) /\ stripped (entry_message r).
Proof.
  intros H. apply parse_readme_Ok_inv in H as [_ H].
  destruct (parse_readme_Ok content r H) as [title [body [_ [_ [-> [-> [-> ->]]]]]]].
  assert (Hmd : Forall (fun kv => clean_value (snd kv))
                       (metadata_scan (split section_sep content)
                                      [("image", ""); ("entry_message", "")])).
  { apply metadata_scan_clean. repeat constructor. }
  repeat split; try apply strip_idem;
    apply (dict_get_default_clean _ _ Hmd).
Qed.

(** X3: the name, the image and the entry message of a record that
    [parse_readme] returns hold no line break. *)
Theorem parse_readme_fields_single_line
  (convert : string -> pyresult string) (content : string) (r : Persona) :
  parse_readme convert content = Ok r ->
  single_line (name r) /\ single_line (image r) /\ single_line (entry_message r).
Proof.
  intros H. apply parse_readme_Ok_inv in H as [_ H].
  destruct (parse_readme_Ok content r H) as [title [body [Ht [_ [-> [_ [-> ->]]]]]]].
  assert (Hmd : Forall (fun kv => clean_value (snd kv))
                       (metadata_scan (split section_sep content)
                                      [("image", ""); ("entry_message", "")])).
  { apply metadata_scan_clean. repeat constructor. }
  repeat split; try apply (dict_get_default_clean _ _ Hmd).
  apply lacks_strip, lacks_replace_empty; [discriminate|].
  exact (first_line_lacks_nl _ _ Ht).
Qed.

Lemma parse_readme_fields_stripped_witness :
  stripped (name nova) /\ stripped (prompt nova)
  /\ stripped (image nova) /\ stripped (entry_message nova).
Proof.
  apply (parse_readme_fields_stripped convert_plain (readme_content nova) nova).
  vm_compute. reflexivity.
Defined.

Lemma parse_readme_fields_single_line_witness :
  single_line (name nova) /\ single_line (image nova)
  /\ single_line (entry_message nova).
Proof.
  apply (parse_readme_fields_single_line convert_plain (readme_content nova) nova).
  vm_compute. reflexivity.
Defined.

Lemma metadata_scan_none sections md :
  Forall (fun part => startswith part "Metadata" = false) sections ->
  metadata_scan sections md = md.
Proof.
  induction 1 as [|part l Hp _ IH]; [reflexivity|]. simpl. rewrite Hp. exact IH.
Qed.

(** X4: when the document neither begins with [Metadata] nor has a line
    beginning with [## Metadata], the record that [parse_readme] returns
    has the empty string as image and as entry message. *)
Theorem parse_readme_without_metadata
  (convert : string -> pyresult string) (content : string) (r : Persona) :
  startswith content "Metadata" = false ->
  no_line_starts "## Metadata" content ->
  parse_readme convert content = Ok r ->
  image r = "" /\ entry_message r = "".
Proof.
  unfold no_line_starts. intros Hs Hc H. apply parse_readme_Ok_inv in H as [_ H].
  destruct (parse_readme_Ok content r H) as [title [body [_ [_ [_ [_ [-> ->]]]]]]].
  rewrite metadata_scan_none; [split; reflexivity|].
  apply split_none_startswith; [exact section_sep_ne|exact Hs|].
  destruct (contains (section_sep +:+ "Metadata") content) eqn:E; [|reflexivity].
  apply contains_spec in E as [pre [post ->]].
  assert (C : contains (String nl "## Metadata")
                       (String nl (pre +:+ (section_sep +:+ "Metadata") +:+ post))
              = true).
  { apply contains_spec. exists (String nl pre), post. reflexivity. }
  congruence.
Qed.

Lemma parse_readme_without_metadata_witness :
  image (mkPersona "T" "Hello." "" "") = ""
  /\ entry_message (mkPersona "T" "Hello." "" "") = "".
Proof.
  apply (parse_readme_without_metadata convert_plain
           ("# T" +:+ NL +:+ NL +:+ "Hello." +:+ NL +:+ "## Voice" +:+ NL
            +:+ "- image: x" +:+ NL)
           (mkPersona "T" "Hello." "" ""));
    vm_compute; reflexivity.
Defined.

Lemma metadata_scan_found l1 l2 md :
  existsb (fun s => startswith s "Metadata") l1 = true ->
  metadata_scan (l1 ++ l2) md = metadata_scan l1 md.
Proof.
  induction l1 as [|s l1 IH]; simpl; [discriminate|].
  destruct (startswith s "Metadata"); [reflexivity|exact IH].
Qed.

Lemma parse_sections_ignores_later_sections content extra :
  existsb (fun s => startswith s "Metadata") (split section_sep content) = true ->
  parse_sections (content +:+ section_sep +:+ extra) = parse_sections content.
Proof.
  intros H.
  assert (Hsp : split section_sep (content +:+ section_sep +:+ extra)
                = split section_sep content ++ split section_sep extra)
    by (unfold section_sep; apply split_app_sep; reflexivity).
  unfold parse_sections. cbv zeta.
  rewrite Hsp, (metadata_scan_found _ _ _ H).
  destruct (split_first_section content) as [l Hl].
  assert (Hi : index (split section_sep content ++ split section_sep extra) 0
               = index (split section_sep content) 0)
    by (rewrite Hl; reflexivity).
  rewrite Hi. reflexivity.
Qed.

(** X5: when some section of the document starts with [Metadata], the
    sections that follow the document do not count: with further sections
    appended, [parse_readme] gives the same result, as long as the markdown
    conversion raises neither on the document nor on the longer one. *)
Theorem parse_readme_ignores_later_sections
  (convert : string -> pyresult string) (content extra html html' : string) :
  existsb (fun s => startswith s "Metadata") (split section_sep content) = true ->
  convert content = Ok html ->
  convert (content +:+ section_sep +:+ extra) = Ok html' ->
  parse_readme convert (content +:+ section_sep +:+ extra)
  = parse_readme convert content.
Proof.
  intros H Hc Hc'.
  rewrite (parse_readme_converted _ _ _ Hc), (parse_readme_converted _ _ _ Hc').
  apply parse_sections_ignores_later_sections, H.
Qed.

Lemma parse_readme_ignores_later_sections_witness :
  parse_readme convert_plain
    (readme_content nova +:+ section_sep +:+
     ("Metadata" +:+ NL +:+ "- image: other.png" +:+ NL))
  = parse_readme convert_plain (readme_content nova).
Proof.
  apply (parse_readme_ignores_later_sections convert_plain (readme_content nova)
           ("Metadata" +:+ NL +:+ "- image: other.png" +:+ NL)
           ("<p>" +:+ readme_content nova +:+ "</p>")
           ("<p>" +:+ (readme_content nova +:+ section_sep +:+
                       ("Metadata" +:+ NL +:+ "- image: other.png" +:+ NL))
            +:+ "</p>")).
  - vm_compute. reflexivity.
  - reflexivity.
  - reflexivity.
Defined.

(** * Further properties of the store *)

Lemma dict_get_set_eq {V} (d : Dict.t V) k v : Dict.get (Dict.set d k v) k = Some v.
Proof.
  induction d as [|[k' v'] d IH]; simpl.
  - rewrite String.eqb_refl. reflexivity.
  - destruct (String.eqb k k') eqn:E; simpl; rewrite E; [reflexivity|exact IH].
Qed.

Lemma dict_get_set_ne {V} (d : Dict.t V) k k' v :
  k' <> k -> Dict.get (Dict.set d k v) k' = Dict.get d k'.
Proof.
  intros Hne. induction d as [|[k0 v0] d IH]; simpl.
  - destruct (String.eqb_spec k' k); [contradiction|reflexivity].
  - destruct (String.eqb_spec k k0) as [->|]; simpl.
    + destruct (String.eqb_spec k' k0); [contradiction|reflexivity].
    + rewrite IH. reflexivity.
Qed.

Lemma update_persona_image_known w k path l p :
  Dict.get (personas w) k = Some l -> heap w !! l = Some p ->
  update_persona_image k path w
  = match Dict.get (fs_fail w) k with
    | Some failure =>
        (false,
         logger ERROR ("Failed to save persona " +:+ k +:+ ": "
                       +:+ error_text failure)
           match file_left failure with
           | Some t =>
               set_files (Dict.set (files w) k t)
                 (set_heap (alter (set_image path) l (heap w)) w)
           | None => set_heap (alter (set_image path) l (heap w)) w
           end)
    | None =>
        (true,
         set_files (Dict.set (files w) k (readme_content (set_image path p)))
           (set_heap (alter (set_image path) l (heap w)) w))
    end.
Proof.
  intros Hk Hl. unfold update_persona_image, save_persona. rewrite Hk.
  cbn [heap set_heap fs_fail files]. rewrite list_lookup_alter_eq, Hl. reflexivity.
Qed.

(** X6: for a key of the store whose directory can be written,
    [update_persona_image] returns [True], sets the image of the stored
    record and of no other, keeps the mapping, and writes for this key, and
    for no other, the document of the changed record. *)
Theorem update_persona_image_saved (w : World) (k path : string) (l : nat) (p : Persona) :
  Dict.get (personas w) k = Some l -> heap w !! l = Some p ->
  Dict.get (fs_fail w) k = None ->
  fst (update_persona_image k path w) = true
  /\ heap (snd (update_persona_image k path w)) !! l = Some (set_image path p)
  /\ (forall j, j <> l ->
        heap (snd (update_persona_image k path w)) !! j = heap w !! j)
  /\ personas (snd (update_persona_image k path w)) = personas w
  /\ Dict.get (files (snd (update_persona_image k path w))) k
     = Some (readme_content (set_image path p))
  /\ (forall k', k' <> k ->
        Dict.get (files (snd (update_persona_image k path w))) k'
        = Dict.get (files w) k').
Proof.
  intros Hk Hl Hf. rewrite (update_persona_image_known w k path l p Hk Hl), Hf.
  cbn [fst snd heap personas files set_files set_heap].
  repeat split.
  - rewrite list_lookup_alter_eq, Hl. reflexivity.
  - intros j Hj. apply list_lookup_alter_ne. congruence.
  - apply dict_get_set_eq.
  - intros k' Hk'. apply dict_get_set_ne, Hk'.
Qed.

Lemma update_persona_image_saved_witness :
  fst (update_persona_image "nova" "local_images/nova.png" example_world) = true
  /\ heap (snd (update_persona_image "nova" "local_images/nova.png" example_world)) !! 0
     = Some (set_image "local_images/nova.png" nova)
  /\ (forall j, j <> 0 ->
        heap (snd (update_persona_image "nova" "local_images/nova.png" example_world)) !! j
        = heap example_world !! j)
  /\ personas (snd (update_persona_image "nova" "local_images/nova.png" example_world))
     = personas example_world
  /\ Dict.get (files (snd (update_persona_image "nova" "local_images/nova.png"
                             example_world))) "nova"
     = Some (readme_content (set_image "local_images/nova.png" nova))
  /\ (forall k', k' <> "nova" ->
        Dict.get (files (snd (update_persona_image "nova" "local_images/nova.png"
                                example_world))) k'
        = Dict.get (files example_world) k').
Proof.
  apply (update_persona_image_saved example_world "nova" "local_images/nova.png" 0 nova);
    reflexivity.
Defined.

(** X7: for a key of the store for which saving fails,
    [update_persona_image] returns [False] and logs the error, yet the
    image of the stored record is changed.  The files of the other keys are
    as they were; the file of the key is as it was when the failure comes
    before it is opened, and else holds what the failure left of it:
    nothing makes it the document of the changed record, and the store and
    the file need no longer agree. *)
Theorem update_persona_image_not_saved
  (w : World) (k path : string) (failure : Failure) (l : nat) (p : Persona) :
  Dict.get (personas w) k = Some l -> heap w !! l = Some p ->
  Dict.get (fs_fail w) k = Some failure ->
  fst (update_persona_image k path w) = false
  /\ heap (snd (update_persona_image k path w)) !! l = Some (set_image path p)
  /\ personas (snd (update_persona_image k path w)) = personas w
  /\ log (snd (update_persona_image k path w))
     = log w ++ [(ERROR, "Failed to save persona " +:+ k +:+ ": "
                         +:+ error_text failure)]
  /\ (forall k', k' <> k ->
        Dict.get (files (snd (update_persona_image k path w))) k'
        = Dict.get (files w) k')
  /\ Dict.get (files (snd (update_persona_image k path w))) k
     = match file_left failure with
       | Some t => Some t
       | None => Dict.get (files w) k
       end.
Proof.
  intros Hk Hl Hf. rewrite (update_persona_image_known w k path l p Hk Hl), Hf.
  destruct (file_left failure) as [t|];
    cbn [fst snd heap personas files log logger set_files set_heap];
    (split; [reflexivity|]);
    (split; [rewrite list_lookup_alter_eq, Hl; reflexivity|]);
    (split; [reflexivity|]); (split; [reflexivity|]); split;
    try reflexivity.
  - intros k' Hk'. apply dict_get_set_ne, Hk'.
  - apply dict_get_set_eq.
Qed.

Lemma update_persona_image_not_saved_witness :
  fst (update_persona_image "bob" "b.png" example_world) = false
  /\ heap (snd (update_persona_image "bob" "b.png" example_world)) !! 1
     = Some (set_image "b.png"
               (mkPersona "Bob" "I am Bob." "https://utfs.io/uploadthing.com/b.png" ""))
  /\ personas (snd (update_persona_image "bob" "b.png" example_world))
     = personas example_world
  /\ log (snd (update_persona_image "bob" "b.png" example_world))
     = log example_world
       ++ [(ERROR, "Failed to save persona " +:+ "bob" +:+ ": "
                   +:+ error_text (mkFailure "Read-only file system" None))]
  /\ (forall k', k' <> "bob" ->
        Dict.get (files (snd (update_persona_image "bob" "b.png" example_world))) k'
        = Dict.get (files example_world) k')
  /\ Dict.get (files (snd (update_persona_image "bob" "b.png" example_world))) "bob"
     = match file_left (mkFailure "Read-only file system" None) with
       | Some t => Some t
       | None => Dict.get (files example_world) "bob"
       end.
Proof.
  apply (update_persona_image_not_saved example_world "bob" "b.png"
           (mkFailure "Read-only file system" None) 1
           (mkPersona "Bob" "I am Bob." "https://utfs.io/uploadthing.com/b.png" ""));
    reflexivity.
Defined.

Lemma replace_absent old new t :
  old <> "" -> find_sep old t = None -> replace old new t = t.
Proof. intros Hne E. rewrite replace_eq, E by exact Hne. reflexivity. Qed.

Lemma replace_same old t : old <> "" -> replace old old t = t.
Proof.
  intros Hne.
  remember (String.length t) as n eqn:Hn.
  assert (Hle : String.length t <= n) by lia. clear Hn.
  revert t Hle. induction n as [|n IH]; intros t Hle;
    rewrite replace_eq by assumption;
    (destruct (find_sep old t) as [[b a]|] eqn:E; [|reflexivity]);
    pose proof (find_sep_shorter _ _ _ _ Hne E) as Hlt; [lia|].
  rewrite IH by lia. symmetry. exact (find_sep_Some _ _ _ _ E).
Qed.

(** Writing a text without carriage return with the separator ["\r\n"],
    then reading ["\r\n"] as ["\n"], gives the text back. *)
Lemma crlf_read_back t :
  no_carriage_return t ->
  replace (CR +:+ NL) NL (replace NL (CR +:+ NL) t) = t.
Proof.
  unfold no_carriage_return.
  remember (String.length t) as n eqn:Hn.
  assert (Hle : String.length t <= n) by lia. clear Hn.
  assert (Hnl : NL <> "") by discriminate.
  assert (Hcr : CR +:+ NL <> "") by discriminate.
  revert t Hle. induction n as [|n IH]; intros t Hle Ht;
    rewrite (replace_eq NL) by exact Hnl;
    (destruct (find_sep NL t) as [[b a]|] eqn:E;
     [|apply replace_absent; [exact Hcr|apply lacks_find_sep, Ht]]);
    pose proof (find_sep_shorter _ _ _ _ Hnl E) as Hlt; [lia|].
  destruct (lacks_find_sep_parts _ _ _ _ _ Ht E) as [Hb Ha].
  rewrite (replace_eq (CR +:+ NL)) by exact Hcr.
  change (CR +:+ NL) with (String "013"%char NL) at 1.
  rewrite find_sep_skip by exact Hb.
  change (String "013"%char NL) with (CR +:+ NL).
  rewrite find_sep_here. cbn [prepend]. rewrite app_nil_r, IH by (lia || exact Ha).
  symmetry. exact (find_sep_Some _ _ _ _ E).
Qed.

(** A text without carriage return, once written, is read back as it is,
    whether the line separator of the platform is ["\n"] or ["\r\n"]. *)
Lemma read_back_plain linesep t :
  linesep = NL \/ linesep = CR +:+ NL -> no_carriage_return t ->
  read_back linesep t = t.
Proof.
  intros Hsep Ht. unfold read_back, universal_newlines.
  assert (E : replace (CR +:+ NL) NL (replace NL linesep t) = t).
  { destruct Hsep as [->| ->].
    - rewrite replace_same by discriminate.
      apply replace_absent; [discriminate|apply lacks_find_sep, Ht].
    - apply crlf_read_back, Ht. }
  rewrite E. apply replace_absent; [discriminate|apply lacks_find_sep, Ht].
Qed.

Lemma readme_content_no_carriage_return r :
  no_carriage_return (name r) -> no_carriage_return (prompt r) ->
  no_carriage_return (image r) -> no_carriage_return (entry_message r) ->
  no_carriage_return (readme_content r).
Proof.
  unfold no_carriage_return, readme_content. intros Hn Hp Hi He.
  rewrite !lacks_app, Hn, Hp, Hi, He. reflexivity.
Qed.

(** X8: after [update_persona_image] on a key that can be saved, reading
    the file of the key back in text mode and parsing it gives the stored
    record with the new image, when the markdown conversion of the document
    does not raise, no field holds a carriage return, the name is one
    stripped line without ["# "], the prompt is stripped with no line
    beginning with ["## "], and the entry message and the new image are
    single stripped lines; the line separator of the platform is ["\n"] or
    ["\r\n"]. *)
Theorem update_persona_image_reload
  (convert : string -> pyresult string)
  (w : World) (k path linesep html : string) (l : nat) (p : Persona) :
  Dict.get (personas w) k = Some l -> heap w !! l = Some p ->
  Dict.get (fs_fail w) k = None ->
  linesep = NL \/ linesep = CR +:+ NL ->
  convert (readme_content (set_image path p)) = Ok html ->
  no_carriage_return (name p) -> no_carriage_return (prompt p) ->
  no_carriage_return (entry_message p) -> no_carriage_return path ->
  single_line (name p) -> stripped (name p) -> contains "# " (name p) = false ->
  stripped (prompt p) -> no_line_starts "## " (prompt p) ->
  single_line (entry_message p) -> stripped (entry_message p) ->
  single_line path -> stripped path ->
  exists content,
    Dict.get (files (snd (update_persona_image k path w))) k = Some content
    /\ parse_readme convert (read_back linesep content) = Ok (set_image path p)
    /\ heap (snd (update_persona_image k path w)) !! l = Some (set_image path p).
Proof.
  intros Hk Hl Hf Hsep Hc Hr1 Hr2 Hr3 Hr4 Hn1 Hn2 Hn3 Hp1 Hp2 He1 He2 Hi1 Hi2.
  rewrite (update_persona_image_known w k path l p Hk Hl), Hf.
  cbn [fst snd heap files set_files set_heap].
  exists (readme_content (set_image path p)). repeat split.
  - apply dict_get_set_eq.
  - rewrite (read_back_plain linesep _ Hsep)
      by (apply readme_content_no_carriage_return; assumption).
    rewrite (parse_readme_converted _ _ _ Hc).
    apply parse_readme_saved_record; assumption.
  - rewrite list_lookup_alter_eq, Hl. reflexivity.
Qed.

Lemma update_persona_image_reload_witness :
  exists content,
    Dict.get (files (snd (update_persona_image "nova" "https://x.com/a.png"
                            example_world))) "nova" = Some content
    /\ parse_readme convert_plain (read_back (CR +:+ NL) content)
       = Ok (set_image "https://x.com/a.png" nova)
    /\ heap (snd (update_persona_image "nova" "https://x.com/a.png" example_world)) !! 0
       = Some (set_image "https://x.com/a.png" nova).
Proof.
  apply (update_persona_image_reload convert_plain example_world "nova"
           "https://x.com/a.png" (CR +:+ NL)
           ("<p>" +:+ readme_content (set_image "https://x.com/a.png" nova) +:+ "</p>")
           0 nova);
    try reflexivity.
  right. reflexivity.
Defined.

(** A carriage return in the name does not come back: it is read as a
    line break, and the name read is the first line. *)
Example read_back_carriage_return :
  parse_readme convert_plain
    (read_back NL (readme_content (mkPersona ("A" +:+ CR +:+ "B") "P" "" "")))
  = Ok (mkPersona "A" "P" "" "").
Proof. vm_compute. reflexivity. Qed.

(** X9: after [update_persona_image] on a key of the store with a
    non-empty path, whether the write succeeds or not, [needs_image_upload]
    on this key is [False] exactly when the path holds the domain. *)
Theorem needs_image_upload_after_update
  (w : World) (k path d : string) (l : nat) (p : Persona) :
  Dict.get (personas w) k = Some l -> heap w !! l = Some p -> path <> "" ->
  needs_image_upload k d (snd (update_persona_image k path w))
  = negb (contains d path).
Proof.
  intros Hk Hl Hne. rewrite (update_persona_image_known w k path l p Hk Hl).
  unfold needs_image_upload.
  destruct (Dict.get (fs_fail w) k) as [failure|];
    [destruct (file_left failure)|];
    cbn [fst snd heap personas logger set_files set_heap];
    rewrite Hk, list_lookup_alter_eq, Hl; simpl;
    rewrite (truthy_ne _ Hne); reflexivity.
Qed.

Lemma needs_image_upload_after_update_witness :
  needs_image_upload "nova" "uploadthing.com"
    (snd (update_persona_image "nova" "https://utfs.io/uploadthing.com/n.png"
            example_world))
  = negb (contains "uploadthing.com" "https://utfs.io/uploadthing.com/n.png").
Proof.
  apply (needs_image_upload_after_update example_world "nova"
           "https://utfs.io/uploadthing.com/n.png" "uploadthing.com" 0 nova);
    [reflexivity|reflexivity|discriminate].
Defined.

Lemma alter_snoc {A} (f : A -> A) (h : list A) (x : A) :
  alter f (length h) (h ++ [x]) = h ++ [f x].
Proof.
  rewrite <- (Nat.add_0_r (length h)) at 1. rewrite alter_app_r. reflexivity.
Qed.

(** The end of [get_persona], after the copy [p] of a stored record has
    been made and the choice logged. *)
Lemma instruct_copy w p m :
  instruct (length (heap w)) (logger INFO m (set_heap (heap w ++ [p]) w))
  = (Ok (length (heap w)),
     mkWorld (heap w ++ [instructed p]) (personas w) (files w) (fs_fail w)
             (log w ++ [(INFO, m)])).
Proof.
  unfold instruct. cbn [heap logger set_heap].
  rewrite list_lookup_middle by reflexivity.
  assert (Himg : (if negb (truthy (image p)) then set_image "" p else p) = p).
  { unfold truthy. destruct (String.eqb_spec (image p) ""); [|reflexivity].
    destruct p; simpl in *; subst; reflexivity. }
  destruct (negb (truthy (image p))); cbn [heap logger set_heap personas files fs_fail log];
    rewrite ?alter_snoc, ?Himg; reflexivity.
Qed.

Lemma named_persona_copy w n l p rnd :
  truthy n = true -> Dict.get (personas w) n = Some l -> heap w !! l = Some p ->
  get_persona (Some n) rnd w
  = (Ok (length (heap w)),
     mkWorld (heap w ++ [instructed p]) (personas w) (files w) (fs_fail w)
             (log w ++ [(INFO, "Using specified persona: " +:+ n)])).
Proof.
  intros Ht Hk Hl. unfold get_persona, named_persona, dict_copy.
  rewrite Ht, Hk, Hl. apply instruct_copy.
Qed.

Lemma get_persona_no_name n rnd w :
  truthy n = false -> get_persona (Some n) rnd w = get_persona None rnd w.
Proof. intros Ht. unfold get_persona. rewrite Ht. reflexivity. Qed.

Lemma random_persona_copy w l p rnd :
  Dict.values (personas w) !! (rnd mod length (Dict.values (personas w))) = Some l ->
  heap w !! l = Some p ->
  get_persona None rnd w
  = (Ok (length (heap w)),
     mkWorld (heap w ++ [instructed p]) (personas w) (files w) (fs_fail w)
             (log w ++ [(INFO, "Randomly selected persona: " +:+ name p)])).
Proof.
  intros Hv Hl. unfold get_persona, random_persona, dict_copy. cbv zeta.
  rewrite Hv, Hl. cbn [heap set_heap].
  rewrite list_lookup_middle by reflexivity. apply instruct_copy.
Qed.

(** What [get_persona] does, in every case: it raises and leaves the
    state as it was, or it returns the address of a new object, the copy of
    a stored record with the instructions after its prompt, and logs one
    line. *)
Lemma get_persona_cases nm rnd w :
  (exists e, get_persona nm rnd w = (Raise e, w))
  \/ (exists l p m,
        l ∈ Dict.values (personas w) /\ heap w !! l = Some p
        /\ get_persona nm rnd w
           = (Ok (length (heap w)),
              mkWorld (heap w ++ [instructed p]) (personas w) (files w)
                      (fs_fail w) (log w ++ [(INFO, m)]))).
Proof.
  assert (Hrandom :
    (exists e, get_persona None rnd w = (Raise e, w))
    \/ (exists l p m,
          l ∈ Dict.values (personas w) /\ heap w !! l = Some p
          /\ get_persona None rnd w
             = (Ok (length (heap w)),
                mkWorld (heap w ++ [instructed p]) (personas w) (files w)
                        (fs_fail w) (log w ++ [(INFO, m)])))).
  { destruct (Dict.values (personas w) !! (rnd mod length (Dict.values (personas w))))
      as [l|] eqn:Hv.
    - destruct (heap w !! l) as [p|] eqn:Hl.
      + right. exists l, p, ("Randomly selected persona: " +:+ name p).
        split; [eapply list_elem_of_lookup_2; exact Hv|]. split; [exact Hl|].
        exact (random_persona_copy w l p rnd Hv Hl).
      + left. unfold get_persona, random_persona, dict_copy. cbv zeta.
        rewrite Hv, Hl. eauto.
    - left. unfold get_persona, random_persona. cbv zeta. rewrite Hv. eauto. }
  destruct nm as [n|]; [|exact Hrandom].
  destruct (truthy n) eqn:Ht; [|rewrite (get_persona_no_name n rnd w Ht); exact Hrandom].
  destruct (Dict.get (personas w) n) as [l|] eqn:Hk.
  - destruct (heap w !! l) as [p|] eqn:Hl.
    + right. exists l, p, ("Using specified persona: " +:+ n).
      split; [|split; [exact Hl|exact (named_persona_copy w n l p rnd Ht Hk Hl)]].
      clear - Hk. unfold Dict.values.
      induction (personas w) as [|[k' l'] d IH]; simpl in *; [discriminate|].
      destruct (String.eqb n k'); [injection Hk as ->; left|right; auto].
    + left. unfold get_persona, named_persona, dict_copy.
      rewrite Ht, Hk, Hl. eauto.
  - left. unfold get_persona, named_persona. rewrite Ht, Hk. eauto.
Qed.

(** X10: whatever its arguments, [get_persona] changes neither the
    mapping, nor the files, nor any object of the heap, and the object it
    returns is none of the stored ones: its address was free before the
    call. *)
Theorem get_persona_keeps_store (nm : option string) (rnd : nat) (w : World) :
  personas (snd (get_persona nm rnd w)) = personas w
  /\ files (snd (get_persona nm rnd w)) = files w
  /\ (forall j p, heap w !! j = Some p ->
                  heap (snd (get_persona nm rnd w)) !! j = Some p)
  /\ (forall l', fst (get_persona nm rnd w) = Ok l' -> heap w !! l' = None).
Proof.
  destruct (get_persona_cases nm rnd w) as [[e ->]|[l [p [m [_ [_ ->]]]]]];
    cbn [fst snd personas files heap].
  - repeat split; auto. discriminate.
  - repeat split.
    + intros j q Hj. apply lookup_app_l_Some, Hj.
    + intros l' [= <-]. apply lookup_ge_None. lia.
Qed.

Lemma lookup_map {A B} (f : A -> B) (l : list A) i :
  map f l !! i = f <$> l !! i.
Proof.
  revert i. induction l as [|x l IH]; intros [|i]; simpl; auto.
Qed.

Lemma get_persona_no_name_random nm rnd w :
  no_name nm -> get_persona nm rnd w = get_persona None rnd w.
Proof.
  destruct nm as [n|]; [|reflexivity]. simpl. intros ->.
  apply get_persona_no_name. reflexivity.
Qed.

(** X11: on a well-formed store that is not empty, [get_persona] without
    name, or with the empty name, returns a new object: the record stored
    at the position drawn, with the instructions after its prompt. *)
Theorem get_persona_random (nm : option string) (rnd : nat) (w : World) :
  wf_world w -> personas w <> [] -> no_name nm ->
  exists k l p,
    personas w !! (rnd mod length (personas w)) = Some (k, l)
    /\ heap w !! l = Some p
    /\ fst (get_persona nm rnd w) = Ok (length (heap w))
    /\ heap (snd (get_persona nm rnd w)) !! length (heap w) = Some (instructed p).
Proof.
  intros Hwf Hne Hnm. rewrite (get_persona_no_name_random nm rnd w Hnm).
  assert (Hlt : rnd mod length (personas w) < length (personas w)).
  { apply Nat.mod_upper_bound. destruct (personas w); [congruence|simpl; lia]. }
  destruct (lookup_lt_is_Some_2 _ _ Hlt) as [[k l] Hkl].
  assert (Hl : l < length (heap w)).
  { unfold wf_world in Hwf. rewrite Forall_lookup in Hwf.
    apply (Hwf _ _ Hkl). }
  destruct (lookup_lt_is_Some_2 _ _ Hl) as [p Hp].
  exists k, l, p. split; [exact Hkl|]. split; [exact Hp|].
  rewrite (random_persona_copy w l p rnd).
  - cbn [fst snd heap]. split; [reflexivity|].
    apply list_lookup_middle. reflexivity.
  - unfold Dict.values. rewrite length_map, lookup_map, Hkl. reflexivity.
  - exact Hp.
Qed.

Lemma get_persona_random_witness :
  exists k l p,
    personas example_world !! (5 mod length (personas example_world)) = Some (k, l)
    /\ heap example_world !! l = Some p
    /\ fst (get_persona None 5 example_world) = Ok (length (heap example_world))
    /\ heap (snd (get_persona None 5 example_world)) !! length (heap example_world)
       = Some (instructed p).
Proof.
  apply (get_persona_random None 5 example_world).
  - repeat constructor; simpl; (discriminate || lia).
  - discriminate.
  - exact I.
Defined.

(** X12: on an empty store, [get_persona] without name, or with the empty
    name, raises [IndexError] and leaves the state as it was. *)
Theorem get_persona_empty_store (nm : option string) (rnd : nat) (w : World) :
  personas w = [] -> no_name nm ->
  get_persona nm rnd w
  = (Raise (IndexError "Cannot choose from an empty sequence"), w).
Proof.
  intros He Hnm. rewrite (get_persona_no_name_random nm rnd w Hnm).
  unfold get_persona, random_persona. cbv zeta. rewrite He. reflexivity.
Qed.

Lemma get_persona_empty_store_witness :
  get_persona (Some "") 3 (mkWorld [] [] [] [] [])
  = (Raise (IndexError "Cannot choose from an empty sequence"),
     mkWorld [] [] [] [] []).
Proof.
  apply (get_persona_empty_store (Some "") 3 (mkWorld [] [] [] [] []));
    reflexivity.
Defined.

Lemma first_named_skip n w items1 rest :
  Forall (fun kv => exists q, heap w !! snd kv = Some q /\ name q <> n) items1 ->
  first_named n (Dict.values (items1 ++ rest)) w
  = first_named n (Dict.values rest) w.
Proof.
  induction 1 as [|[k' l'] items1 [q [Hq Hn]] _ IH]; [reflexivity|].
  simpl. simpl in Hq. rewrite Hq.
  destruct (String.eqb_spec (name q) n); [contradiction|exact IH].
Qed.

(** X13: [get_persona_by_name] returns a new object equal to the first
    record of the store, in its order, whose display name is the one
    asked: the prompt is the stored one, no instructions are added, and the
    state is otherwise as it was. *)
Theorem get_persona_by_name_first
  (w : World) (n k : string) (l : nat) (p : Persona)
  (items1 items2 : list (string * nat)) :
  personas w = items1 ++ (k, l) :: items2 ->
  Forall (fun kv => exists q, heap w !! snd kv = Some q /\ name q <> n) items1 ->
  heap w !! l = Some p -> name p = n ->
  get_persona_by_name n w
  = (Ok (length (heap w)), set_heap (heap w ++ [p]) w).
Proof.
  intros Hp H1 Hl Hn. unfold get_persona_by_name.
  rewrite Hp, (first_named_skip n w items1 _ H1). simpl.
  rewrite Hl, Hn, String.eqb_refl. unfold dict_copy. rewrite Hl. reflexivity.
Qed.

Lemma get_persona_by_name_first_witness :
  get_persona_by_name "Bob" example_world
  = (Ok (length (heap example_world)),
     set_heap (heap example_world
               ++ [mkPersona "Bob" "I am Bob." "https://utfs.io/uploadthing.com/b.png" ""])
              example_world).
Proof.
  apply (get_persona_by_name_first example_world "Bob" "bob" 1
           (mkPersona "Bob" "I am Bob." "https://utfs.io/uploadthing.com/b.png" "")
           [("nova", 0)] []).
  - reflexivity.
  - repeat constructor. exists nova. split; [reflexivity|discriminate].
  - reflexivity.
  - reflexivity.
Defined.

(** X14: when no record of the store has the display name asked,
    [get_persona_by_name] raises the [KeyError] whose message lists the
    display names of the store, in its order, and leaves the state as it
    was; the empty name is looked up like any other. *)
Theorem get_persona_by_name_unknown (w : World) (n : string) (names : list string) :
  Forall2 (fun kv nm => exists q, heap w !! snd kv = Some q /\ name q = nm /\ nm <> n)
          (personas w) names ->
  get_persona_by_name n w
  = (Raise (KeyError ("Persona '" +:+ n +:+ "' not found. Valid options: "
                      +:+ join ", " names)), w).
Proof.
  intros H. unfold get_persona_by_name, display_names.
  assert (E : first_named n (Dict.values (personas w)) w = Ok None
              /\ omap (fun l => name <$> heap w !! l) (Dict.values (personas w))
                 = names).
  { induction H as [|[k l] nm items nms [q [Hq [Hn Hne]]] _ [IH1 IH2]].
    - split; reflexivity.
    - simpl in *. rewrite Hq. subst nm. split.
      + destruct (String.eqb_spec (name q) n); [contradiction|exact IH1].
      + simpl. f_equal. exact IH2. }
  destruct E as [-> ->]. reflexivity.
Qed.

Lemma get_persona_by_name_unknown_witness :
  get_persona_by_name "" example_world
  = (Raise (KeyError ("Persona '" +:+ "" +:+ "' not found. Valid options: "
                      +:+ join ", " ["Nova"; "Bob"])), example_world).
Proof.
  apply (get_persona_by_name_unknown example_world "" ["Nova"; "Bob"]).
  repeat constructor.
  - exists nova. repeat split. discriminate.
  - eexists. split; [reflexivity|]. split; [reflexivity|discriminate].
Defined.

(** X15: [get_image_urls] has the keys of the store, in its order; the
    value at a key is the image of the stored record; and
    [needs_image_upload] on a key is [False] exactly when that value is not
    empty and holds the domain. *)
Theorem get_image_urls_store (w : World) :
  Dict.keys (get_image_urls w) = Dict.keys (personas w)
  /\ (forall k l p,
        Dict.get (personas w) k = Some l -> heap w !! l = Some p ->
        Dict.get (get_image_urls w) k = Some (image p)
        /\ forall d, needs_image_upload k d w
                     = negb (truthy (image p) && contains d (image p)))
  /\ (forall k, Dict.get (personas w) k = None ->
                Dict.get (get_image_urls w) k = None).
Proof.
  unfold get_image_urls, Dict.keys. split; [|split].
  - rewrite map_map. reflexivity.
  - intros k l p Hk Hl. split.
    + induction (personas w) as [|[k' l'] d IH]; simpl in *; [discriminate|].
      destruct (String.eqb k k'); [|exact (IH Hk)].
      injection Hk as ->. rewrite Hl. reflexivity.
    + intros d. unfold needs_image_upload. rewrite Hk, Hl. reflexivity.
  - intros k Hk.
    induction (personas w) as [|[k' l'] d IH]; simpl in *; [reflexivity|].
    destruct (String.eqb k k'); [discriminate|exact (IH Hk)].
Qed.

(** X16: [list_personas] gives the keys of the store in ascending order,
    each as often as the store has it, so it is the same list for two
    stores with the same keys, whatever the order in which they were
    loaded. *)
Theorem list_personas_sorted (w : World) :
  Sorted String.le (list_personas w)
  /\ list_personas w ≡ₚ Dict.keys (personas w)
  /\ (forall w', Dict.keys (personas w') ≡ₚ Dict.keys (personas w) ->
                 list_personas w' = list_personas w).
Proof.
  unfold list_personas. split; [apply Sorted_merge_sort; apply _|].
  split; [apply merge_sort_Permutation|].
  intros w' Hp. apply (Sorted_unique String.le).
  - apply Sorted_merge_sort; apply _.
  - apply Sorted_merge_sort; apply _.
  - rewrite !merge_sort_Permutation. exact Hp.
Qed.

Example list_personas_example : list_personas example_world = ["bob"; "nova"].
Proof. vm_compute. reflexivity. Qed.

(** The loop of [save_personas], as a whole. *)
Lemma save_items_spec items : forall success w,
  heap (snd (save_items items success w)) = heap w
  /\ personas (snd (save_items items success w)) = personas w
  /\ fs_fail (snd (save_items items success w)) = fs_fail w
  /\ files (snd (save_items items success w))
     = fold_left (save_step w) items (files w)
  /\ fst (save_items items success w) = success && forallb (can_save w) items.
Proof.
  induction items as [|[k l] rest IH]; intros success w.
  - simpl. rewrite andb_true_r. auto.
  - cbn [save_items]. unfold save_persona.
    cbn [fold_left forallb]. unfold save_step at 2, can_save at 1.
    cbn [fst snd].
    destruct (heap w !! l) as [p|] eqn:Hl.
    + destruct (Dict.get (fs_fail w) k) as [failure|] eqn:Hf.
      * destruct (file_left failure) as [t|].
        -- destruct (IH false (logger ERROR ("Failed to save persona " +:+ k)
                       (logger ERROR ("Failed to save persona " +:+ k +:+ ": "
                                      +:+ error_text failure)
                          (set_files (Dict.set (files w) k t) w))))
             as [-> [-> [-> [-> ->]]]].
           cbn [heap personas fs_fail files logger set_files].
           rewrite andb_false_r. repeat split.
        -- destruct (IH false (logger ERROR ("Failed to save persona " +:+ k)
                       (logger ERROR ("Failed to save persona " +:+ k +:+ ": "
                                      +:+ error_text failure) w)))
             as [-> [-> [-> [-> ->]]]].
           cbn [heap personas fs_fail files logger]. rewrite andb_false_r.
           repeat split.
      * destruct (IH success
                     (set_files (Dict.set (files w) k (readme_content p)) w))
          as [-> [-> [-> [-> ->]]]].
        cbn [heap personas fs_fail files set_files]. repeat split.
    + destruct (IH false (logger ERROR ("Failed to save persona " +:+ k) w))
        as [-> [-> [-> [-> ->]]]].
      cbn [heap personas fs_fail files logger]. rewrite andb_false_r.
      repeat split.
Qed.

Lemma forallb_can_save w items :
  Forall (fun kv => fst kv <> "" /\ snd kv < length (heap w)) items ->
  forallb (can_save w) items = forallb (writable w) (map fst items).
Proof.
  induction 1 as [|[k l] rest [_ Hl] _ IH]; [reflexivity|].
  simpl in *. rewrite IH. f_equal. unfold can_save, writable. simpl.
  destruct (lookup_lt_is_Some_2 _ _ Hl) as [p ->]. reflexivity.
Qed.

(** X17: on a well-formed store, [save_personas] returns [True] exactly
    when the directory of every key can be written; it changes neither the
    mapping nor the persona objects. *)
Theorem save_personas_flag (w : World) :
  wf_world w ->
  fst (save_personas w) = forallb (writable w) (Dict.keys (personas w))
  /\ personas (snd (save_personas w)) = personas w
  /\ heap (snd (save_personas w)) = heap w.
Proof.
  intros Hwf. unfold save_personas.
  destruct (save_items_spec (personas w) true w) as [Hh [Hp [_ [_ Hr]]]].
  rewrite Hr, Hh, Hp. simpl. split; [|auto].
  apply forallb_can_save, Hwf.
Qed.

Lemma save_personas_flag_witness :
  fst (save_personas example_world)
  = forallb (writable example_world) (Dict.keys (personas example_world))
  /\ personas (snd (save_personas example_world)) = personas example_world
  /\ heap (snd (save_personas example_world)) = heap example_world.
Proof.
  apply (save_personas_flag example_world).
  repeat constructor; simpl; (discriminate || lia).
Defined.

Lemma dict_get_not_key {V} (d : Dict.t V) k :
  k ∉ Dict.keys d -> Dict.get d k = None.
Proof.
  unfold Dict.keys. induction d as [|[k' v] d IH]; [reflexivity|]. simpl.
  intros H. destruct (String.eqb_spec k k') as [->|].
  - exfalso. apply H. left.
  - apply IH. intros Hin. apply H. right. exact Hin.
Qed.

Lemma save_step_other w f k k0 l0 :
  k <> k0 -> Dict.get (save_step w f (k0, l0)) k = Dict.get f k.
Proof.
  intros Hne. unfold save_step. cbn [fst snd].
  destruct (heap w !! l0); [|reflexivity].
  destruct (Dict.get (fs_fail w) k0) as [failure|];
    [destruct (file_left failure); [|reflexivity]|];
    apply dict_get_set_ne, Hne.
Qed.

Lemma save_step_own w f1 f2 k l :
  Dict.get f1 k = Dict.get f2 k ->
  Dict.get (save_step w f1 (k, l)) k = Dict.get (save_step w f2 (k, l)) k.
Proof.
  intros H. unfold save_step. cbn [fst snd].
  destruct (heap w !! l); [|exact H].
  destruct (Dict.get (fs_fail w) k) as [failure|];
    [destruct (file_left failure); [|exact H]|];
    rewrite !dict_get_set_eq; reflexivity.
Qed.

Lemma fold_save_step_other w items : forall f k,
  k ∉ Dict.keys items ->
  Dict.get (fold_left (save_step w) items f) k = Dict.get f k.
Proof.
  induction items as [|[k0 l0] rest IH]; intros f k H; [reflexivity|].
  cbn [fold_left]. unfold Dict.keys in H. simpl in H.
  rewrite IH by (intros Hin; apply H; right; exact Hin).
  apply save_step_other. intros ->. apply H. left.
Qed.

Lemma fold_save_step_key w items : forall f k l,
  NoDup (Dict.keys items) -> Dict.get items k = Some l ->
  Dict.get (fold_left (save_step w) items f) k
  = Dict.get (save_step w f (k, l)) k.
Proof.
  induction items as [|[k0 l0] rest IH]; intros f k l Hnd Hk; [discriminate|].
  unfold Dict.keys in Hnd. simpl in Hnd. apply NoDup_cons in Hnd as [Hnotin Hnd].
  simpl in Hk. cbn [fold_left].
  destruct (String.eqb_spec k k0) as [->|Hne].
  - injection Hk as ->. apply fold_save_step_other. exact Hnotin.
  - rewrite (IH _ k l Hnd Hk). apply save_step_own, save_step_other, Hne.
Qed.

(** X18: after [save_personas], the file of every key that can be saved is
    the document of its record, also when saving other keys fails; the file
    of a key that is not in the store is as it was; the file of a key for
    which saving fails is as it was when the failure comes before the file
    is opened, and else holds what the failure left of it. *)
Theorem save_personas_files (w : World) (k : string) :
  NoDup (Dict.keys (personas w)) ->
  (forall l p,
     Dict.get (personas w) k = Some l -> heap w !! l = Some p ->
     writable w k = true ->
     Dict.get (files (snd (save_personas w))) k = Some (readme_content p))
  /\ (Dict.get (personas w) k = None ->
      Dict.get (files (snd (save_personas w))) k = Dict.get (files w) k)
  /\ (forall l p failure,
        Dict.get (personas w) k = Some l -> heap w !! l = Some p ->
        Dict.get (fs_fail w) k = Some failure ->
        Dict.get (files (snd (save_personas w))) k
        = match file_left failure with
          | Some t => Some t
          | None => Dict.get (files w) k
          end).
Proof.
  intros Hnd. unfold save_personas.
  destruct (save_items_spec (personas w) true w) as [_ [_ [_ [-> _]]]].
  split; [|split].
  - intros l p Hk Hl Hw. rewrite (fold_save_step_key w _ _ k l Hnd Hk).
    unfold save_step, writable in *. cbn [fst snd]. rewrite Hl.
    destruct (Dict.get (fs_fail w) k); [discriminate|apply dict_get_set_eq].
  - intros Hk. apply fold_save_step_other. intros Hin.
    clear - Hk Hin. unfold Dict.keys in Hin.
    induction (personas w) as [|[k' l'] d IH]; [inversion Hin|].
    simpl in Hk, Hin. destruct (String.eqb_spec k k') as [->|Hne]; [discriminate|].
    apply elem_of_cons in Hin as [->|Hin]; [contradiction|auto].
  - intros l p failure Hk Hl Hf. rewrite (fold_save_step_key w _ _ k l Hnd Hk).
    unfold save_step. cbn [fst snd]. rewrite Hl, Hf.
    destruct (file_left failure); [apply dict_get_set_eq|reflexivity].
Qed.

Lemma save_personas_files_witness :
  (forall l p,
     Dict.get (personas example_world) "bob" = Some l ->
     heap example_world !! l = Some p ->
     writable example_world "bob" = true ->
     Dict.get (files (snd (save_personas example_world))) "bob"
     = Some (readme_content p))
  /\ (Dict.get (personas example_world) "bob" = None ->
      Dict.get (files (snd (save_personas example_world))) "bob"
      = Dict.get (files example_world) "bob")
  /\ (forall l p failure,
        Dict.get (personas example_world) "bob" = Some l ->
        heap example_world !! l = Some p ->
        Dict.get (fs_fail example_world) "bob" = Some failure ->
        Dict.get (files (snd (save_personas example_world))) "bob"
        = match file_left failure with
          | Some t => Some t
          | None => Dict.get (files example_world) "bob"
          end).
Proof.
  apply (save_personas_files example_world "bob").
  apply (bool_decide_unpack _). vm_compute. exact I.
Defined.


Lemma dict_keys_set_new {V} (d : Dict.t V) k v :
  k ∉ Dict.keys d -> Dict.keys (Dict.set d k v) = Dict.keys d ++ [k].
Proof.
  unfold Dict.keys. induction d as [|[k' v'] d IH]; [reflexivity|]. simpl.
  intros H. destruct (String.eqb_spec k k') as [->|].
  - exfalso. apply H. left.
  - simpl. f_equal. apply IH. intros Hin. apply H. right. exact Hin.
Qed.

Lemma load_entries_mapping convert entries : forall acc w d w',
  NoDup (Dict.keys acc ++ map entry_name (List.filter readable entries)) ->
  load_entries convert entries acc w = (Ok d, w') ->
  Dict.keys d = Dict.keys acc ++ map entry_name (List.filter readable entries)
  /\ (forall k l, Dict.get acc k = Some l -> Dict.get d k = Some l)
  /\ (forall j p, heap w !! j = Some p -> heap w' !! j = Some p)
  /\ (forall e c, In e entries -> readable e = true -> readme e = Some c ->
        exists l p, Dict.get d (entry_name e) = Some l
                    /\ heap w' !! l = Some p /\ parse_readme convert c = Ok p).
Proof.
  induction entries as [|e rest IH]; intros acc w d w' Hnd H.
  - simpl in *. injection H as <- <-. rewrite List.app_nil_r.
    repeat split; auto. intros e c [].
  - cbn [load_entries] in H. cbn [List.filter] in *. unfold readable at 1 in Hnd.
    unfold readable at 1.
    destruct (is_dir e) eqn:Hd; cbn [negb andb] in *.
    + destruct (readme e) as [c|] eqn:Hr.
      * destruct (parse_readme convert c) as [p|ex] eqn:Hp; [|discriminate].
        cbn [map] in *.
        assert (Hnotin : entry_name e ∉ Dict.keys acc).
        { intros Hin. apply NoDup_app in Hnd as [_ [Hdis _]].
          apply (Hdis _ Hin). left. }
        assert (Hnd' : NoDup (Dict.keys (Dict.set acc (entry_name e) (length (heap w)))
                              ++ map entry_name (List.filter readable rest))).
        { rewrite dict_keys_set_new by exact Hnotin.
          rewrite <- List.app_assoc. exact Hnd. }
        destruct (IH _ _ _ _ Hnd' H) as [Hk [Hacc [Hheap Hent]]].
        split; [rewrite Hk, dict_keys_set_new by exact Hnotin;
                rewrite <- List.app_assoc; reflexivity|].
        split; [|split].
        -- intros k l Hkl. apply Hacc. rewrite dict_get_set_ne; [exact Hkl|].
           intros ->. rewrite (dict_get_not_key _ _ Hnotin) in Hkl. discriminate.
        -- intros j q Hj. apply Hheap. cbn [heap set_heap].
           apply lookup_app_l_Some, Hj.
        -- intros e' c' [<-|Hin] Hre Hrc.
           ++ rewrite Hr in Hrc. injection Hrc as <-.
              exists (length (heap w)), p. split; [apply Hacc, dict_get_set_eq|].
              split; [|exact Hp]. apply Hheap. cbn [heap set_heap].
              apply list_lookup_middle. reflexivity.
           ++ exact (Hent e' c' Hin Hre Hrc).
      * destruct (IH _ _ _ _ Hnd H) as [Hk [Hacc [Hheap Hent]]].
        repeat split; auto.
        intros e' c' [<-|Hin] Hre Hrc; [congruence|eauto].
    + destruct (IH _ _ _ _ Hnd H) as [Hk [Hacc [Hheap Hent]]].
      repeat split; auto.
      intros e' c' [<-|Hin] Hre Hrc; [|eauto].
      unfold readable in Hre. rewrite Hd in Hre. discriminate.
Qed.

(** X20: when [load_personas] returns a mapping, and no two directories
    with a README have the same name, its keys are the names of the
    directories that have a README, in the order of the listing (other
    entries are left out); each key leads to the record parsed from the
    README of its directory; the objects that were in the heap are
    untouched. *)
Theorem load_personas_mapping
  (convert : string -> pyresult string)
  (entries : list DirEntry) (w w' : World) (d : Dict.t nat) :
  NoDup (map entry_name (List.filter readable entries)) ->
  load_personas convert entries w = (Ok d, w') ->
  Dict.keys d = map entry_name (List.filter readable entries)
  /\ (forall e c, In e entries -> readable e = true -> readme e = Some c ->
        exists l p, Dict.get d (entry_name e) = Some l
                    /\ heap w' !! l = Some p /\ parse_readme convert c = Ok p)
  /\ (forall j p, heap w !! j = Some p -> heap w' !! j = Some p).
Proof.
  intros Hnd H.
  destruct (load_entries_mapping convert entries [] w d w' Hnd H) as [Hk [_ [Hh He]]].
  auto.
Qed.

Lemma load_personas_mapping_witness :
  Dict.keys [("nova", 0)] = map entry_name (List.filter readable example_listing)
  /\ (forall e c, In e example_listing -> readable e = true -> readme e = Some c ->
        exists l p, Dict.get [("nova", 0)] (entry_name e) = Some l
                    /\ heap (mkWorld [nova] [] [] []
                               [(WARNING, "Skipping persona without README: empty")])
                       !! l = Some p
                    /\ parse_readme convert_plain c = Ok p)
  /\ (forall j p, heap (mkWorld [] [] [] [] []) !! j = Some p ->
                  heap (mkWorld [nova] [] [] []
                          [(WARNING, "Skipping persona without README: empty")])
                  !! j = Some p).
Proof.
  apply (load_personas_mapping convert_plain example_listing (mkWorld [] [] [] [] [])
           (mkWorld [nova] [] [] []
                    [(WARNING, "Skipping persona without README: empty")])
           [("nova", 0)]).
  - apply (bool_decide_unpack _). vm_compute. exact I.
  - vm_compute. reflexivity.
Defined.

Lemma wf_world_ext w w' :
  personas w' = personas w -> length (heap w) <= length (heap w') ->
  wf_world w -> wf_world w'.
Proof.
  unfold wf_world. intros -> Hlen H. eapply Forall_impl; [exact H|].
  simpl. intros kv [? ?]. split; [assumption|lia].
Qed.

(** X21: [get_persona], [update_persona_image] and [save_personas] keep
    the store well formed: its keys stay non-empty and every key still
    leads to an object of the heap. *)
Theorem wf_world_preserved
  (w : World) (nm : option string) (rnd : nat) (k path : string) :
  wf_world w ->
  wf_world (snd (get_persona nm rnd w))
  /\ wf_world (snd (update_persona_image k path w))
  /\ wf_world (snd (save_personas w)).
Proof.
  intros Hwf. split; [|split].
  - destruct (get_persona_cases nm rnd w) as [[e ->]|[l [p [m [_ [_ ->]]]]]];
      [exact Hwf|].
    apply (wf_world_ext w); [reflexivity| |exact Hwf].
    cbn [snd heap]. rewrite List.length_app. lia.
  - destruct (Dict.get (personas w) k) as [l|] eqn:Hk.
    + destruct (heap w !! l) as [p|] eqn:Hl.
      * rewrite (update_persona_image_known w k path l p Hk Hl).
        apply (wf_world_ext w); [| |exact Hwf];
          (destruct (Dict.get (fs_fail w) k) as [failure|];
           [destruct (file_left failure)|]);
          cbn [snd heap personas logger set_files set_heap];
          rewrite ?length_alter; (reflexivity || lia).
      * unfold update_persona_image, save_persona. rewrite Hk.
        cbn [heap set_heap]. rewrite list_lookup_alter_eq, Hl. cbn [fmap option_fmap option_map snd].
        apply (wf_world_ext w); [reflexivity| |exact Hwf].
        cbn [heap set_heap]. rewrite length_alter. lia.
    + unfold update_persona_image. rewrite Hk. exact Hwf.
  - destruct (save_items_spec (personas w) true w) as [Hh [Hp _]].
    apply (wf_world_ext w); [exact Hp| |exact Hwf].
    unfold save_personas. rewrite Hh. lia.
Qed.

Lemma wf_world_preserved_witness :
  wf_world (snd (get_persona (Some "nova") 0 example_world))
  /\ wf_world (snd (update_persona_image "bob" "b.png" example_world))
  /\ wf_world (snd (save_personas example_world)).
Proof.
  apply (wf_world_preserved example_world (Some "nova") 0 "bob" "b.png").
  repeat constructor; simpl; (discriminate || lia).
Defined.

(** * Properties of the parts of [generate_images.py] *)

(** X22: [api_key.replace("sk_live_", "")] leaves a key without
    ["sk_live_"] as it is, and removes the text wherever it stands, at the
    beginning of the key or after other characters. *)
Theorem clean_api_key_removes (a b : string) :
  contains "sk_live_" a = false ->
  GenerateImages.clean_api_key a = a
  /\ GenerateImages.clean_api_key (a +:+ "sk_live_" +:+ b)
     = a +:+ GenerateImages.clean_api_key b.
Proof.
  unfold GenerateImages.clean_api_key, contains. intros H.
  assert (Hne : "sk_live_" <> "") by discriminate.
  destruct (find_sep "sk_live_" a) as [[? ?]|] eqn:E; [discriminate|].
  split.
  - rewrite replace_eq, E by exact Hne. reflexivity.
  - rewrite replace_eq by exact Hne.
    rewrite (find_sep_first "s" "k_live_" a b eq_refl E). reflexivity.
Qed.

Lemma clean_api_key_removes_witness :
  GenerateImages.clean_api_key "r8_" = "r8_"
  /\ GenerateImages.clean_api_key ("r8_" +:+ "sk_live_" +:+ "abc")
     = "r8_" +:+ GenerateImages.clean_api_key "abc".
Proof. apply (clean_api_key_removes "r8_" "abc"). reflexivity. Defined.

(** X23: [main] goes on with keys exactly when [sys.argv] has seven
    elements with the three flags at positions 1, 3 and 5, in this order;
    the keys are then the elements at positions 2, 4 and 6, the first one
    without ["sk_live_"]; in every other case it exits with status 1. *)
Theorem check_argv_keys (argv : list string) (a b c : string) :
  GenerateImages.check_argv argv = GenerateImages.Keys a b c
  <-> exists prog k1,
        argv = [prog; "--replicate-key"; k1; "--utfs-key"; b; "--app-id"; c]
        /\ a = GenerateImages.clean_api_key k1.
Proof.
  split.
  - unfold GenerateImages.check_argv.
    destruct argv as [|x0 [|f1 [|k1 [|f2 [|k2 [|f3 [|k3 [|x7 rest]]]]]]]];
      try discriminate.
    cbn [length Nat.eqb negb lookup list_lookup].
    destruct (String.eqb_spec f1 "--replicate-key") as [->|]; [|discriminate].
    destruct (String.eqb_spec f2 "--utfs-key") as [->|]; [|discriminate].
    destruct (String.eqb_spec f3 "--app-id") as [->|]; [|discriminate].
    simpl. intros [= <- <- <-]. eauto.
  - intros [prog [k1 [-> ->]]]. reflexivity.
Qed.

Lemma key_of_name_skip n w items1 rest :
  Forall (fun kv => exists q, heap w !! snd kv = Some q /\ name q <> n) items1 ->
  GenerateImages.key_of_name n (items1 ++ rest) w
  = GenerateImages.key_of_name n rest w.
Proof.
  induction 1 as [|[k' l'] items1 [q [Hq Hn]] _ IH]; [reflexivity|].
  simpl. simpl in Hq. rewrite Hq.
  destruct (String.eqb_spec (name q) n); [contradiction|exact IH].
Qed.

(** X24: the key that [main] finds for a display name is the key of the
    first record of the store with this name: a later persona with the same
    display name is not found, and what is recorded for it goes to the
    earlier key. *)
Theorem key_of_name_first
  (w : World) (n k : string) (l : nat) (p : Persona)
  (items1 items2 : list (string * nat)) :
  personas w = items1 ++ (k, l) :: items2 ->
  Forall (fun kv => exists q, heap w !! snd kv = Some q /\ name q <> n) items1 ->
  heap w !! l = Some p -> name p = n ->
  GenerateImages.key_of_name n (personas w) w = Some k.
Proof.
  intros Hp H1 Hl Hn. rewrite Hp, (key_of_name_skip n w items1 _ H1). simpl.
  rewrite Hl, Hn, String.eqb_refl. reflexivity.
Qed.

Lemma key_of_name_first_witness :
  GenerateImages.key_of_name "Bob" (personas example_world) example_world
  = Some "bob".
Proof.
  apply (key_of_name_first example_world "Bob" "bob" 1
           (mkPersona "Bob" "I am Bob." "https://utfs.io/uploadthing.com/b.png" "")
           [("nova", 0)] []).
  - reflexivity.
  - repeat constructor. exists nova. split; [reflexivity|discriminate].
  - reflexivity.
  - reflexivity.
Defined.

(** X25: when the display names of the store are pairwise different, the
    key that [main] finds for the display name of a stored record is the
    key of this record. *)
Theorem key_of_name_own_key
  (w : World) (names : list string) (i : nat) (k : string) (l : nat) (p : Persona) :
  Forall2 (fun kv nm => exists q, heap w !! snd kv = Some q /\ name q = nm)
          (personas w) names ->
  NoDup names ->
  personas w !! i = Some (k, l) -> heap w !! l = Some p ->
  GenerateImages.key_of_name (name p) (personas w) w = Some k.
Proof.
  intros H2 Hnd Hi Hl.
  destruct (list_elem_of_split_length _ _ _ Hi) as [items1 [items2 [Hp Hlen]]].
  apply (key_of_name_first w (name p) k l p items1 items2 Hp); [|exact Hl|reflexivity].
  rewrite Hp in H2. apply Forall2_app_inv_l in H2 as [n1 [n2 [H1 [Hrest ->]]]].
  inversion Hrest as [|? nm ? n2' [q [Hq Hnm]] _]; subst.
  simpl in Hq. rewrite Hl in Hq. injection Hq as <-.
  apply NoDup_app in Hnd as [_ [Hdis _]].
  clear - H1 Hdis. induction H1 as [|[k' l'] nm' it ns [q [Hq Hn]] _ IH];
    constructor.
  - exists q. split; [exact Hq|]. intros Heq. apply (Hdis nm'); [left|].
    rewrite <- Hn, Heq. left.
  - apply IH. intros x Hx. apply Hdis. right. exact Hx.
Qed.

Lemma key_of_name_own_key_witness :
  GenerateImages.key_of_name
    (name (mkPersona "Bob" "I am Bob." "https://utfs.io/uploadthing.com/b.png" ""))
    (personas example_world) example_world
  = Some "bob".
Proof.
  apply (key_of_name_own_key example_world ["Nova"; "Bob"] 1 "bob" 1
           (mkPersona "Bob" "I am Bob." "https://utfs.io/uploadthing.com/b.png" "")).
  - repeat constructor; eexists; split; reflexivity.
  - apply (bool_decide_unpack _). vm_compute. exact I.
  - reflexivity.
  - reflexivity.
Defined.

(** * A further property of the meeting-bot request *)

(** X26: two requests that [create_meeting_bot] constructs with different
    bot identifiers have different deduplication keys and different
    streaming endpoints, when the persona name is the same and the base
    websocket URL is the same. *)
Theorem create_meeting_bot_request_distinct
  (HttpUrl : Type) (validate_url : string -> option HttpUrl) (Any : Type)
  (meeting_url1 meeting_url2 w i1 i2 n : string) (recorder1 recorder2 : bool)
  (image1 image2 entry1 entry2 : option string)
  (extra1 extra2 : option (Dict.t Any)) (frequency1 frequency2 : string)
  (r1 r2 : MeetingBaas.MeetingBaasRequest HttpUrl Any) :
  MeetingBaas.create_meeting_bot_request HttpUrl validate_url Any
    meeting_url1 w i1 n recorder1 image1 entry1 extra1 frequency1 = Ok r1 ->
  MeetingBaas.create_meeting_bot_request HttpUrl validate_url Any
    meeting_url2 w i2 n recorder2 image2 entry2 extra2 frequency2 = Ok r2 ->
  i1 <> i2 ->
  MeetingBaas.deduplication_key _ _ r1 <> MeetingBaas.deduplication_key _ _ r2
  /\ MeetingBaas.input (MeetingBaas.streaming _ _ r1)
     <> MeetingBaas.input (MeetingBaas.streaming _ _ r2)
  /\ MeetingBaas.output (MeetingBaas.streaming _ _ r1)
     <> MeetingBaas.output (MeetingBaas.streaming _ _ r2).
Proof.
  unfold MeetingBaas.create_meeting_bot_request.
  destruct (MeetingBaas.validate_bot_image HttpUrl validate_url image1);
    [|discriminate].
  destruct (MeetingBaas.validate_bot_image HttpUrl validate_url image2);
    [|discriminate].
  rewrite !mbind_Ok. intros [= <-] [= <-] Hne.
  destruct recorder1, recorder2; simpl; repeat split;
    intros H; try injection H as H; apply Hne;
    repeat (apply app_inv_head in H); exact H.
Qed.

Lemma create_meeting_bot_request_distinct_witness :
  MeetingBaas.deduplication_key _ _
    (MeetingBaas.mkRequest string unit "https://meet.example/a" "Nova" false
       (MeetingBaas.mkStreaming "wss://h/ws/b1" "wss://h/ws/b1" "24khz")
       (MeetingBaas.mkAutomaticLeave 600 0) MeetingBaas.SPEAKER_VIEW None
       (Some "Nova-BaaS-b1") None None None None None)
  <> MeetingBaas.deduplication_key _ _
       (MeetingBaas.mkRequest string unit "https://meet.example/a" "Nova" false
          (MeetingBaas.mkStreaming "wss://h/ws/b2" "wss://h/ws/b2" "24khz")
          (MeetingBaas.mkAutomaticLeave 600 0) MeetingBaas.SPEAKER_VIEW None
          (Some "Nova-BaaS-b2") None None None None None)
  /\ MeetingBaas.input (MeetingBaas.streaming _ _
       (MeetingBaas.mkRequest string unit "https://meet.example/a" "Nova" false
          (MeetingBaas.mkStreaming "wss://h/ws/b1" "wss://h/ws/b1" "24khz")
          (MeetingBaas.mkAutomaticLeave 600 0) MeetingBaas.SPEAKER_VIEW None
          (Some "Nova-BaaS-b1") None None None None None))
     <> MeetingBaas.input (MeetingBaas.streaming _ _
          (MeetingBaas.mkRequest string unit "https://meet.example/a" "Nova" false
             (MeetingBaas.mkStreaming "wss://h/ws/b2" "wss://h/ws/b2" "24khz")
             (MeetingBaas.mkAutomaticLeave 600 0) MeetingBaas.SPEAKER_VIEW None
             (Some "Nova-BaaS-b2") None None None None None))
  /\ MeetingBaas.output (MeetingBaas.streaming _ _
       (MeetingBaas.mkRequest string unit "https://meet.example/a" "Nova" false
          (MeetingBaas.mkStreaming "wss://h/ws/b1" "wss://h/ws/b1" "24khz")
          (MeetingBaas.mkAutomaticLeave 600 0) MeetingBaas.SPEAKER_VIEW None
          (Some "Nova-BaaS-b1") None None None None None))
     <> MeetingBaas.output (MeetingBaas.streaming _ _
          (MeetingBaas.mkRequest string unit "https://meet.example/a" "Nova" false
             (MeetingBaas.mkStreaming "wss://h/ws/b2" "wss://h/ws/b2" "24khz")
             (MeetingBaas.mkAutomaticLeave 600 0) MeetingBaas.SPEAKER_VIEW None
             (Some "Nova-BaaS-b2") None None None None None)).
Proof.
  apply (create_meeting_bot_request_distinct string (fun u => Some u) unit
           "https://meet.example/a" "https://meet.example/a" "wss://h" "b1" "b2"
           "Nova" false false None None None None None None "24khz" "24khz");
    [reflexivity|reflexivity|discriminate].
Defined.
